(** * The recommendation endpoint of app.py

    A shallow embedding of [src/app.py]: the start-up loader (lines 12-35),
    the table [politicas_sugeridas_por_cluster] (lines 40-69) and the request
    handler [recommend] (lines 82-128), with the properties of the handler
    that the specification states.

    Python strings are kept as their UTF-8 encoding in [string]; the
    characters the code searches for (space, comma, slash, ...) are ASCII,
    so replacing and splitting bytewise agrees with Python's behaviour on
    code points. *)

From Stdlib Require Import ZArith Lia Ascii String.
From stdpp Require Import base option list strings gmap.

Local Open Scope Z_scope.
Local Open Scope string_scope.

(** ** Python helpers on [str] *)

Module PyStr.

(** [prefix p s]: [s.startswith(p)]. *)
Fixpoint prefix (p s : string) : bool :=
  match p, s with
  | EmptyString, _ => true
  | String a p', String b s' => bool_decide (a = b) && prefix p' s'
  | String _ _, EmptyString => false
  end.

Fixpoint drop (n : nat) (s : string) : string :=
  match n, s with
  | O, _ => s
  | S n', String _ s' => drop n' s'
  | S _, EmptyString => EmptyString
  end.

(** [s.replace(old, new)] for a non-empty [old]: every non-overlapping
    occurrence, leftmost first.  [skip] counts the characters of an
    occurrence already replaced that are still to be passed over. *)
Fixpoint replace_from (skip : nat) (old new s : string) : string :=
  match s with
  | EmptyString => EmptyString
  | String c s' =>
      match skip with
      | S k => replace_from k old new s'
      | O =>
          if prefix old s
          then new +:+ replace_from (String.length old - 1) old new s'
          else String c (replace_from O old new s')
      end
  end.

Definition replace (old new s : string) : string := replace_from O old new s.

(** [s.split(c)] for a one-character separator: never the empty list. *)
Fixpoint split (c : ascii) (s : string) : list string :=
  match s with
  | EmptyString => [EmptyString]
  | String a s' =>
      if bool_decide (a = c) then EmptyString :: split c s'
      else match split c s' with
           | h :: t => String a h :: t
           | [] => [String a EmptyString]
           end
  end.

(** [sep.join(l)]. *)
Fixpoint join (sep : string) (l : list string) : string :=
  match l with
  | [] => EmptyString
  | [x] => x
  | x :: l' => x +:+ sep +:+ join sep l'
  end.

Definition bytes (l : list N) : string :=
  string_of_list_ascii (map ascii_of_N l).

(** The characters [str.strip()] removes (those for which
    [str.isspace] holds), each as its UTF-8 encoding: U+0009-U+000D,
    U+001C-U+0020, U+0085, U+00A0, U+1680, U+2000-U+200A, U+2028,
    U+2029, U+202F, U+205F, U+3000. *)
Definition whitespace : list string :=
  map bytes
    ([[9]; [10]; [11]; [12]; [13]; [28]; [29]; [30]; [31]; [32];
      [194; 133]; [194; 160]; [225; 154; 128];
      [226; 128; 128]; [226; 128; 129]; [226; 128; 130]; [226; 128; 131];
      [226; 128; 132]; [226; 128; 133]; [226; 128; 134]; [226; 128; 135];
      [226; 128; 136]; [226; 128; 137]; [226; 128; 138];
      [226; 128; 168]; [226; 128; 169]; [226; 128; 175];
      [226; 129; 159]; [227; 128; 128]])%N.

(** Drop leading occurrences of the strings of [ws]; each round removes
    at least one character, so [String.length s] rounds are enough. *)
Fixpoint lstrip_go (ws : list string) (fuel : nat) (s : string) : string :=
  match fuel with
  | O => s
  | S fuel' =>
      match List.find (fun w => prefix w s) ws with
      | Some w => lstrip_go ws fuel' (drop (String.length w) s)
      | None => s
      end
  end.

Definition lstrip (s : string) : string :=
  lstrip_go whitespace (String.length s) s.

Definition rstrip (s : string) : string :=
  String.rev
    (lstrip_go (map String.rev whitespace) (String.length s) (String.rev s)).

(** [s.strip()]. *)
Definition strip (s : string) : string := rstrip (lstrip s).

(** [sub in s] on strings. *)
Fixpoint contains (sub s : string) : bool :=
  prefix sub s ||
  match s with
  | EmptyString => false
  | String _ s' => contains sub s'
  end.

(** Truth value of a string: non-empty. *)
Definition truthy (s : string) : bool :=
  match s with EmptyString => false | String _ _ => true end.

End PyStr.

(** ** Python values *)

(** The values [request.json] can produce, which are also the values the
    handler builds (rows, response bodies).  A float is kept as its IEEE-754
    bit pattern; the handler never computes with one.  Only look-ups,
    membership and emptiness of a [dict] are used, so a finite map is
    enough for it. *)
#[warning="-register-all"] Inductive value : Type :=
  | VNone
  | VBool (b : bool)
  | VInt (n : Z)
  | VFloat (bits : Z)
  | VStr (s : string)
  | VList (l : list value)
  | VDict (d : gmap string value).

(** The exceptions that occur, all of them subclasses of [Exception], each
    with the text [str(e)] gives.  For [KeyError] that text is the [repr]
    of the missing key. *)
Inductive exn : Type :=
  | FileNotFoundError (detail : string)
  | KeyError (detail : string)
  | TypeError (detail : string)
  | OtherException (detail : string).

Definition exn_str (e : exn) : string :=
  match e with
  | FileNotFoundError s | KeyError s | TypeError s | OtherException s => s
  end.

(** A computation that returns or raises. *)
Inductive result (A : Type) : Type :=
  | Ok (a : A)
  | Raise (e : exn).
Arguments Ok {A} a.
Arguments Raise {A} e.

#[global] Instance result_ret : MRet result := fun A a => Ok a.
#[global] Instance result_bind : MBind result := fun A B k m =>
  match m with
  | Ok a => k a
  | Raise e => Raise e
  end.

(** [type(v).__name__]. *)
Definition type_name (v : value) : string :=
  match v with
  | VNone => "NoneType"
  | VBool _ => "bool"
  | VInt _ => "int"
  | VFloat _ => "float"
  | VStr _ => "str"
  | VList _ => "list"
  | VDict _ => "dict"
  end.

(** [v == s] for a string [s]: a string equals only an equal string. *)
Definition eq_str (s : string) (v : value) : bool :=
  match v with
  | VStr s' => bool_decide (s' = s)
  | _ => false
  end.

(** [s in c]: equality with an element of a list, being a key of a dict,
    being a substring of a string; [TypeError] on anything else. *)
Definition py_in (s : string) (c : value) : result bool :=
  match c with
  | VList l => Ok (existsb (eq_str s) l)
  | VDict d => Ok (bool_decide (is_Some (d !! s)))
  | VStr s' => Ok (PyStr.contains s s')
  | _ =>
      Raise (TypeError
               ("argument of type '" +:+ type_name c +:+ "' is not iterable"))
  end.

(** Truth value of a dict: it has an entry. *)
Definition dict_truthy (d : gmap string value) : bool :=
  negb (bool_decide (size d = 0%nat)).

(** ** Insertion-ordered dicts

    [input_data] becomes the data frame, whose column order is the order
    of first insertion; assigning to a key that is present keeps its
    place. *)
Section OrderedDict.
Context {A : Type}.

Fixpoint dict_set (k : string) (v : A) (d : list (string * A))
  : list (string * A) :=
  match d with
  | [] => [(k, v)]
  | (k', v') :: d' =>
      if decide (k' = k) then (k', v) :: d'
      else (k', v') :: dict_set k v d'
  end.

Fixpoint dict_get (k : string) (d : list (string * A)) : option A :=
  match d with
  | [] => None
  | (k', v') :: d' => if decide (k' = k) then Some v' else dict_get k d'
  end.

(** Assigning a run of keys in order, as both loops of the handler do. *)
Definition set_all {X} (key : X → string) (val : X → A)
    (xs : list X) (d : list (string * A)) : list (string * A) :=
  fold_left (fun acc x => dict_set (key x) (val x) acc) xs d.
End OrderedDict.

(** A row under construction: each column holds a one-element list. *)
Definition row : Type := list (string * list value).

(** [pd.DataFrame(input_data)]: the columns in the order of the dict; all
    columns have length one, so the constructor does not raise. *)
Definition DataFrame : Type := list (string * list value).
Definition pd_DataFrame (input_data : row) : DataFrame := input_data.

(** The loaded pipeline, as [lambda df: pipeline.predict(df)[0]]: an
    integer label, or the exception the call raises. *)
Definition Model : Type := DataFrame -> result Z.

(** ** Process-wide state (lines 12-35) *)

Record state : Type := {
  pipeline : option Model;
  politicas_base : value;
  all_difficulties : list string;
  categorical_cols_for_ohe : list string
}.

(** What each of the four reads does once it is reached. *)
Record files : Type := {
  joblib_load : result Model;                 (* model_pipeline.pkl *)
  load_politicas_base : result value;         (* politicas_base.json *)
  load_all_difficulties : result (list string);
  load_categorical_cols : result (list string)
}.

(** The body of the [try]: four reads in sequence, the first failure ends it. *)
Definition load_all (fs : files) : result state :=
  p ← joblib_load fs;
  pb ← load_politicas_base fs;
  ds ← load_all_difficulties fs;
  cs ← load_categorical_cols fs;
  Ok {| pipeline := Some p; politicas_base := pb;
        all_difficulties := ds; categorical_cols_for_ohe := cs |}.

Definition degraded : state :=
  {| pipeline := None; politicas_base := VDict ∅;
     all_difficulties := []; categorical_cols_for_ohe := [] |}.

Definition missing_files_hint : string :=
  ". Certifique-se de que 'model_pipeline.pkl', 'politicas_base.json', 'all_difficulties.json' e 'categorical_cols_for_ohe.json' estão na mesma pasta do 'app.py'.".

(** Module start: the state the process serves with, and what was printed. *)
Definition startup (fs : files) : state * list string :=
  match load_all fs with
  | Ok st => (st, ["Modelo, políticas e dados de apoio carregados com sucesso."])
  | Raise (FileNotFoundError m) =>
      (degraded, ["Erro ao carregar arquivos: " +:+ m +:+ missing_files_hint])
  | Raise e =>
      (degraded,
       ["Ocorreu um erro inesperado ao carregar arquivos: " +:+ exn_str e])
  end.

(** ** The table of suggested policies (lines 40-69) *)

Definition politicas_cluster_0 : list string :=
  [ "Criar editais específicos para grupos vulneráveis (PCD, baixa renda, sem formação).";
    "Garantir bolsas de apoio financeiro para participação em oficinas e cursos.";
    "Criar programas de capacitação inicial em arte e cultura voltados à inclusão social.";
    "Oferecer apoio logístico (transporte, alimentação) para participação em atividades culturais.";
    "Incentivar projetos de arte comunitária em bairros periféricos." ].

Definition politicas_cluster_1 : list string :=
  [ "Fortalecer canais de divulgação e formação técnica para artistas em início de carreira.";
    "Disponibilizar mentorias com artistas experientes e gestores culturais.";
    "Incentivar parcerias entre artistas emergentes e instituições culturais locais.";
    "Criar feiras, mostras e festivais voltados a talentos em ascensão.";
    "Oferecer cursos de capacitação em gestão de carreira e produção cultural." ].

Definition politicas_cluster_2 : list string :=
  [ "Ampliar incentivos à profissionalização e registro formal de artistas.";
    "Criar linhas de microcrédito específicas para artistas formalizados.";
    "Oferecer capacitação em gestão de carreira, marketing e direitos autorais.";
    "Promover programas de certificação de competências artísticas.";
    "Incentivar a participação em cooperativas e associações de classe." ].

Definition politicas_cluster_3 : list string :=
  [ "Estimular redes de cooperação entre artistas e produtores culturais.";
    "Promover intercâmbios culturais regionais, nacionais e internacionais.";
    "Fomentar o uso de tecnologias digitais para ampliar o alcance do trabalho artístico.";
    "Criar programas de residência artística em diferentes linguagens.";
    "Apoiar iniciativas de economia criativa e inovação cultural." ].

Definition politicas_sugeridas_por_cluster : gmap Z (list string) :=
  <[0 := politicas_cluster_0]>
    (<[1 := politicas_cluster_1]>
       (<[2 := politicas_cluster_2]>
          (<[3 := politicas_cluster_3]> ∅))).

Definition sem_politica : list string :=
  ["Nenhuma política sugerida para este perfil no momento."].

(** ** The handler (lines 82-128) *)

(** What [request.json] does when it is evaluated: it gives the parsed
    body ([None] for none), or Flask ends the request with an HTTP error
    of its own. *)
Inductive request : Type :=
  | JsonValue (data : value)
  | JsonAbort (status : Z).

(** How a call of the handler ends. *)
Inductive outcome : Type :=
  | Respond (status : Z) (body : value)   (* [return jsonify(body), status] *)
  | Aborted (status : Z)                  (* HTTP error raised by Flask *)
  | Uncaught (e : exn).                   (* exception leaving the handler *)

(** [jsonify({"error": msg})]. *)
Definition error_body (msg : string) : value :=
  VDict {[ "error" := VStr msg ]}.

(** [jsonify({"cluster": int(c), "recommendations": recs})]. *)
Definition recommendation_body (c : Z) (recs : list string) : value :=
  VDict (<["cluster" := VInt c]>
           {[ "recommendations" := VList (VStr <$> recs) ]}).

(** The texts of lines 86 and 92. *)
Definition msg_indisponivel : string :=
  "Serviço indisponível: Modelo não carregado. Contacte o administrador.".
Definition msg_invalida : string :=
  "Requisição inválida: Dados JSON esperados.".

Definition nao_informado : string := "Não informado".
Definition campo_dificuldades : string := "Dificuldades_Divulgacao_Digital".

(** Lines 96-97: one column per categorical name, read with a default. *)
Definition categorical_columns
    (cols : list string) (data : gmap string value) (input_data : row) : row :=
  fold_left
    (fun acc col => dict_set col [default (VStr nao_informado) (data !! col)] acc)
    cols input_data.

(** Line 102: [[d.strip() for d in s.split(',') if d.strip()]]. *)
Definition split_difficulties (s : string) : list string :=
  PyStr.strip <$>
    filter (fun d => PyStr.truthy (PyStr.strip d) = true) (PyStr.split "," s).

(** Lines 100-102. *)
Definition read_difficulties (data : gmap string value) : value :=
  match default (VList []) (data !! campo_dificuldades) with
  | VStr s => VList (VStr <$> split_difficulties s)
  | v => v
  end.

(** Line 106. *)
Definition clean_difficulty_name (difficulty : string) : string :=
  "Dificuldade_" +:+
  PyStr.replace "__" "_"
    (PyStr.replace "." ""
       (PyStr.replace ":" ""
          (PyStr.replace ")" ""
             (PyStr.replace "(" ""
                (PyStr.replace "-" "_"
                   (PyStr.replace "/" "_"
                      (PyStr.replace " " "_" difficulty))))))).

Definition flag (b : bool) : list value := [VInt (if b then 1 else 0)].

(** Lines 104-107: one 0/1 column per canonical difficulty; the
    membership test raises on a value that is not a container. *)
Fixpoint difficulty_columns
    (difficulties : list string) (input_difficulties : value) (input_data : row)
  : result row :=
  match difficulties with
  | [] => Ok input_data
  | difficulty :: rest =>
      b ← py_in difficulty input_difficulties;
      difficulty_columns rest input_difficulties
        (dict_set (clean_difficulty_name difficulty) (flag b) input_data)
  end.

(** Lines 95-110: the frame handed to the model. *)
Definition build_input (st : state) (data : gmap string value)
  : result DataFrame :=
  input_data ←
    difficulty_columns (all_difficulties st) (read_difficulties data)
      (categorical_columns (categorical_cols_for_ohe st) data []);
  Ok (pd_DataFrame input_data).

(** The texts of lines 124, 127 and 128, before the detail. *)
Definition msg_chave : string :=
  "Erro de chave: Verifique se todos os campos esperados estão no JSON de entrada. Detalhe: ".
Definition msg_log : string := "Erro inesperado ao fazer a predição: ".
Definition msg_interno : string :=
  "Erro interno no servidor ao processar a requisição. Detalhe: ".

(** A call of the handler gives an outcome and the lines it printed. *)
Definition served : Type := outcome * list string.

(** Lines 112-128: the [try] block. *)
Definition predict_and_answer (model : Model) (input_df : DataFrame) : served :=
  match model input_df with
  | Ok predicted_cluster =>
      (Respond 200
         (recommendation_body predicted_cluster
            (default sem_politica
               (politicas_sugeridas_por_cluster !! predicted_cluster))),
       [])
  | Raise (KeyError k) => (Respond 400 (error_body (msg_chave +:+ k)), [])
  | Raise e =>
      (Respond 500 (error_body (msg_interno +:+ exn_str e)),
       [msg_log +:+ exn_str e])
  end.

Definition recommend (st : state) (req : request) : served :=
  match pipeline st with
  | None => (Respond 503 (error_body msg_indisponivel), [])
  | Some model =>
      match req with
      | JsonAbort status => (Aborted status, [])
      | JsonValue (VDict data) =>
          if dict_truthy data then
            match build_input st data with
            | Ok input_df => predict_and_answer model input_df
            | Raise e => (Uncaught e, [])
            end
          else (Respond 400 (error_body msg_invalida), [])
      | JsonValue _ => (Respond 400 (error_body msg_invalida), [])
      end
  end.

(** The process between requests: the module-level names and what has
    been printed so far. *)
Record process : Type := {
  globals : state;
  stdout : list string
}.

(** ** The handler statement by statement

    The same lines 82-128 with their effects kept apart: reading a
    module-level name, printing, and leaving the function by [return] or
    by an exception.  A name assigned inside [recommend] ([data],
    [input_data], [input_difficulties], ...) is local, since the function
    has no [global] declaration; those assignments are the [let]s and
    binds below.  No statement changes an object reached through a
    module-level name either: the list taken from the table is only
    serialised, and [predict] is taken as a function of the frame. *)

(** A statement goes on with a value, or the function is left with an
    outcome. *)
Inductive flow (A : Type) : Type :=
  | Next (a : A)
  | Leave (o : outcome).
Arguments Next {A} a.
Arguments Leave {A} o.

Definition Handler (A : Type) : Type := process → flow A * process.

#[global] Instance handler_ret : MRet Handler := fun A a p => (Next a, p).
#[global] Instance handler_bind : MBind Handler := fun A B k m p =>
  match m p with
  | (Next a, p') => k a p'
  | (Leave o, p') => (Leave o, p')
  end.

(** Evaluating a module-level name. *)
Definition read_global {A} (name : state → A) : Handler A :=
  fun p => (Next (name (globals p)), p).

(** Assigning to module-level names, which takes a [global] declaration. *)
Definition assign_global (update : state → state) : Handler unit :=
  fun p => (Next (), {| globals := update (globals p); stdout := stdout p |}).

(** [print(line)]. *)
Definition print (line : string) : Handler unit :=
  fun p => (Next (), {| globals := globals p; stdout := stdout p ++ [line] |}).

(** [return jsonify(...), status], or an exception that nothing catches. *)
Definition leave {A} (o : outcome) : Handler A := fun p => (Leave o, p).

(** Line 88: [request.json]. *)
Definition request_json (req : request) : Handler value :=
  match req with
  | JsonValue data => mret data
  | JsonAbort status => leave (Aborted status)
  end.

(** An expression outside the [try]: its exception leaves the handler. *)
Definition evaluate {A} (r : result A) : Handler A :=
  match r with
  | Ok a => mret a
  | Raise e => leave (Uncaught e)
  end.

Definition recommend_handler (req : request) : Handler outcome :=
  loaded ← read_global pipeline;
  match loaded with
  | None => leave (Respond 503 (error_body msg_indisponivel))
  | Some model =>
      data ← request_json req;
      match data with
      | VDict data =>
          if dict_truthy data then
            cols ← read_global categorical_cols_for_ohe;
            let input_data := categorical_columns cols data [] in
            let input_difficulties := read_difficulties data in
            difficulties ← read_global all_difficulties;
            input_data ←
              evaluate (difficulty_columns difficulties input_difficulties
                          input_data);
            let input_df := pd_DataFrame input_data in
            match model input_df with
            | Ok predicted_cluster =>
                leave
                  (Respond 200
                     (recommendation_body predicted_cluster
                        (default sem_politica
                           (politicas_sugeridas_por_cluster
                              !! predicted_cluster))))
            | Raise (KeyError k) =>
                leave (Respond 400 (error_body (msg_chave +:+ k)))
            | Raise e =>
                _ ← print (msg_log +:+ exn_str e);
                leave (Respond 500 (error_body (msg_interno +:+ exn_str e)))
            end
          else leave (Respond 400 (error_body msg_invalida))
      | _ => leave (Respond 400 (error_body msg_invalida))
      end
  end.

(** One request served by the process. *)
Definition serve (req : request) (p : process) : outcome * process :=
  match recommend_handler req p with
  | (Next o, p') | (Leave o, p') => (o, p')
  end.

(** A handler that would reset the vocabulary of difficulties before
    answering; [recommend] has no such line. *)
Definition forgetful_handler (req : request) : Handler outcome :=
  _ ← assign_global
        (fun st => {| pipeline := pipeline st;
                      politicas_base := politicas_base st;
                      all_difficulties := [];
                      categorical_cols_for_ohe := categorical_cols_for_ohe st |});
  recommend_handler req.

(** ** Properties, as predicates on the handler *)

(** Values the membership test of line 107 accepts. *)
Definition iterable (v : value) : bool :=
  match v with
  | VList _ | VDict _ | VStr _ => true
  | _ => false
  end.

(** The outcome of [s in c] where it does not raise. *)
Definition member_of (c : value) (s : string) : bool :=
  match py_in s c with
  | Ok b => b
  | Raise _ => false
  end.

(** The difficulties field as line 100 reads it. *)
Definition difficulties_field (data : gmap string value) : value :=
  default (VList []) (data !! campo_dificuldades).

(** The row is assembled, holds under [col] the request's value or, when
    there is none, the default, and the call ends with a response. *)
Definition categorical_column_ok
    (st : state) (data : gmap string value) (col : string) : Prop :=
  ∃ input_df,
    build_input st data = Ok input_df ∧
    (data !! col = None → dict_get col input_df = Some [VStr nao_informado]) ∧
    (∀ v, data !! col = Some v → dict_get col input_df = Some [v]) ∧
    ∃ status body printed,
      recommend st (JsonValue (VDict data)) = (Respond status body, printed).

(** Two requests get the same 0/1 column for every canonical difficulty. *)
Definition same_flags (st : state) (data1 data2 : gmap string value) : Prop :=
  ∃ df1 df2,
    build_input st data1 = Ok df1 ∧
    build_input st data2 = Ok df2 ∧
    ∀ difficulty, difficulty ∈ all_difficulties st →
      ∃ b, dict_get (clean_difficulty_name difficulty) df1 = Some (flag b) ∧
           dict_get (clean_difficulty_name difficulty) df2 = Some (flag b).

(** The row is assembled and every difficulty column is 0. *)
Definition all_flags_zero (st : state) (data : gmap string value) : Prop :=
  ∃ input_df,
    build_input st data = Ok input_df ∧
    ∀ difficulty, difficulty ∈ all_difficulties st →
      dict_get (clean_difficulty_name difficulty) input_df = Some (flag false).

(** A read of the start-up sequence that raises. *)
Definition fails {A} (r : result A) : Prop := ∃ e, r = Raise e.

(** [c in s] for a character. *)
Fixpoint has_char (c : ascii) (s : string) : bool :=
  match s with
  | EmptyString => false
  | String a s' => bool_decide (a = c) || has_char c s'
  end.

(** A segment that splitting and trimming give back unchanged. *)
Definition plain_segment (s : string) : Prop :=
  has_char "," s = false ∧ PyStr.strip s = s ∧ s ≠ "".

(** States and requests used as concrete instances below. *)
Definition demo_state : state :=
  {| pipeline := Some (fun _ => Ok 0);
     politicas_base := VDict ∅;
     all_difficulties := ["Falta de tempo"; "Falta de recursos"; "Outro"];
     categorical_cols_for_ohe := ["Genero"; "Idade"] |}.

Definition demo_state_with (predict : Model) : state :=
  {| pipeline := Some predict;
     politicas_base := politicas_base demo_state;
     all_difficulties := all_difficulties demo_state;
     categorical_cols_for_ohe := categorical_cols_for_ohe demo_state |}.

Definition demo_data : gmap string value :=
  {[ "Genero" := VStr "Feminino" ]}.

(** The request [data] with its difficulties field set to [v]. *)
Definition with_difficulties (v : value) (data : gmap string value)
  : gmap string value :=
  <[campo_dificuldades := v]> data.

(** The two ways of sending the list [l] of difficulties. *)
Definition as_joined_string (l : list string) : value :=
  VStr (PyStr.join "," l).
Definition as_list (l : list string) : value := VList (VStr <$> l).

Definition collision_state : state :=
  {| pipeline := Some (fun _ => Ok 0);
     politicas_base := VDict ∅;
     all_difficulties := ["Falta de tempo"];
     categorical_cols_for_ohe := ["Dificuldade_Falta_de_tempo"] |}.

Definition comma_state : state :=
  {| pipeline := Some (fun _ => Ok 0);
     politicas_base := VDict ∅;
     all_difficulties := ["Falta de tempo, recursos"];
     categorical_cols_for_ohe := ["Genero"] |}.

Definition numeric_difficulties : gmap string value :=
  {[ campo_dificuldades := VInt 5 ]}.



(** No model file in the working directory. *)
Definition no_model_file : files :=
  {| joblib_load :=
       Raise (FileNotFoundError
                "[Errno 2] No such file or directory: 'model_pipeline.pkl'");
     load_politicas_base := Ok (VDict ∅);
     load_all_difficulties := Ok ["Falta de tempo"];
     load_categorical_cols := Ok ["Genero"] |}.

(** The characters line 106 replaces or removes one by one, and all the
    patterns it searches for. *)
Definition sanitized_away : list ascii :=
  [" "; "/"; "-"; "("; ")"; ":"; "."]%char.
Definition sanitizer_patterns : list string :=
  [" "; "/"; "-"; "("; ")"; ":"; "."; "__"].

(** The list [l] sent as one string with a comma and a space between the
    segments. *)
Definition as_spaced_string (l : list string) : value :=
  VStr (PyStr.join ", " l).

(** The columns of a row, in order. *)
Definition columns (r : row) : list string := r.*1.

(** The row the two loops build when no name is assigned twice. *)
Definition plain_row (st : state) (data : gmap string value) : row :=
  (((fun col => (col, [default (VStr nao_informado) (data !! col)]))
      <$> categorical_cols_for_ohe st) ++
   ((fun d => (clean_difficulty_name d, flag (member_of (read_difficulties data) d)))
      <$> all_difficulties st))%list.

(** The line the loader prints for an exception (lines 22 and 31). *)
Definition load_report (e : exn) : string :=
  match e with
  | FileNotFoundError m =>
      "Erro ao carregar arquivos: " +:+ m +:+ missing_files_hint
  | _ => "Ocorreu um erro inesperado ao carregar arquivos: " +:+ exn_str e
  end.

(** All four files present and well-formed. *)
Definition all_files (predict : Model) : files :=
  {| joblib_load := Ok predict;
     load_politicas_base := Ok (VDict ∅);
     load_all_difficulties := Ok ["Falta de tempo"; "Outro"];
     load_categorical_cols := Ok ["Genero"] |}.

(** The model file present, the vocabulary of difficulties not valid JSON. *)
Definition bad_vocabulary_file : files :=
  {| joblib_load := Ok (fun _ => Ok 0);
     load_politicas_base := Ok (VDict ∅);
     load_all_difficulties :=
       Raise (OtherException "Expecting value: line 1 column 1 (char 0)");
     load_categorical_cols :=
       Raise (FileNotFoundError
                "[Errno 2] No such file or directory: 'categorical_cols_for_ohe.json'") |}.

(** A vocabulary in which two difficulties get the same column name. *)
Definition shared_name_state : state :=
  {| pipeline := Some (fun _ => Ok 0);
     politicas_base := VDict ∅;
     all_difficulties := ["Falta de tempo"; "Falta-de-tempo"; "Outro"];
     categorical_cols_for_ohe := ["Genero"] |}.

(** A request with a field no vocabulary knows. *)
Definition demo_data_extra : gmap string value :=
  <["Cidade" := VStr "Recife"]> demo_data.

(** A request whose difficulties string has only blank segments. *)
Definition blank_difficulties : gmap string value :=
  {[ campo_dificuldades := VStr " , ," ]}.

(** Models that raise: a column the pipeline does not find, and a failure
    of another kind. *)
Definition missing_column_model : Model :=
  fun _ => Raise (KeyError "'Genero'").
Definition failing_model : Model :=
  fun _ => Raise (OtherException "Input contains NaN").

(** The answer line 92 gives: 400 with a JSON error. *)
Definition rejected_as_invalid (st : state) (req : request) : Prop :=
  ∃ msg printed, recommend st req = (Respond 400 (error_body msg), printed).

(** A request without a JSON body: [request.json] ends it with 415
    Unsupported Media Type. *)
Definition no_body : request := JsonAbort 415.


(** * Theorems *)

Example replace_ex1 : PyStr.replace "__" "_" "a___b____c" = "a__b__c".
Proof. reflexivity. Qed.

Example replace_ex2 : PyStr.replace "(" "" "(a)(b)" = "a)b)".
Proof. reflexivity. Qed.

Example split_ex1 : PyStr.split "," "a, b,,c," = ["a"; " b"; ""; "c"; ""].
Proof. reflexivity. Qed.

Example strip_ex1 : PyStr.strip "  Falta de tempo  " = "Falta de tempo".
Proof. reflexivity. Qed.

Example strip_ex2 : PyStr.strip "   " = "".
Proof. reflexivity. Qed.

Example clean_ex1 :
  clean_difficulty_name "Falta de tempo/recursos (equipe): custo-alto."
  = "Dificuldade_Falta_de_tempo_recursos_equipe_custo_alto".
Proof. reflexivity. Qed.

(** Scenario 3 of the specification: two difficulties in one string, every
    categorical column defaulted. *)
Example two_difficulties_row :
  build_input demo_state
    {[ campo_dificuldades := VStr "Falta de tempo, Falta de recursos" ]}
  = Ok [ ("Genero", [VStr nao_informado]);
         ("Idade", [VStr nao_informado]);
         ("Dificuldade_Falta_de_tempo", [VInt 1]);
         ("Dificuldade_Falta_de_recursos", [VInt 1]);
         ("Dificuldade_Outro", [VInt 0]) ].
Proof. reflexivity. Qed.

Example strip_unicode :
  PyStr.strip (PyStr.bytes [194; 160; 97; 32; 98; 226; 128; 137]%N) = "a b".
Proof. reflexivity. Qed.

(** ** Ordered dicts *)

Section OrderedDictFacts.
Context {A : Type}.
Implicit Types (d : list (string * A)) (k : string) (v : A).

Lemma dict_get_set_eq k v d : dict_get k (dict_set k v d) = Some v.
Proof.
  induction d as [|[k' v'] d IH]; simpl.
  - by rewrite decide_True.
  - destruct (decide (k' = k)) as [->|Hne]; simpl.
    + by rewrite decide_True.
    + by rewrite decide_False.
Qed.

Lemma dict_get_set_ne k k' v d :
  k ≠ k' → dict_get k (dict_set k' v d) = dict_get k d.
Proof.
  intros Hne. induction d as [|[k0 v0] d IH]; simpl.
  - rewrite decide_False; [done | congruence].
  - destruct (decide (k0 = k')) as [->|Hne0]; simpl.
    + rewrite !decide_False; [done | congruence | congruence].
    + by rewrite IH.
Qed.

Section SetAll.
Context {X : Type} (key : X → string) (val : X → A).

Lemma set_all_cons x xs d :
  set_all key val (x :: xs) d = set_all key val xs (dict_set (key x) (val x) d).
Proof. reflexivity. Qed.

Lemma get_set_all_other k xs d :
  k ∉ key <$> xs → dict_get k (set_all key val xs d) = dict_get k d.
Proof.
  revert d. induction xs as [|x xs IH]; intros d Hk; [done|].
  rewrite fmap_cons, not_elem_of_cons in Hk. destruct Hk as [Hx Hxs].
  rewrite set_all_cons, IH by done.
  by apply dict_get_set_ne.
Qed.

(** What an assigned key ends with does not depend on the dict the
    run starts from. *)
Lemma get_set_all_base k xs d1 d2 :
  k ∈ key <$> xs →
  dict_get k (set_all key val xs d1) = dict_get k (set_all key val xs d2).
Proof.
  revert d1 d2. induction xs as [|x xs IH]; intros d1 d2 Hk.
  - by apply elem_of_nil in Hk.
  - rewrite !set_all_cons.
    destruct (decide (k ∈ key <$> xs)) as [Hin|Hout]; [by apply IH|].
    rewrite fmap_cons in Hk. apply elem_of_cons in Hk as [->|Hk]; [|done].
    by rewrite !get_set_all_other, !dict_get_set_eq.
Qed.

(** A key that is assigned ends with the value of one of its
    assignments (the last). *)
Lemma get_set_all_assigned k xs d :
  k ∈ key <$> xs →
  ∃ x, x ∈ xs ∧ key x = k ∧ dict_get k (set_all key val xs d) = Some (val x).
Proof.
  revert d. induction xs as [|x xs IH]; intros d Hk.
  - by apply elem_of_nil in Hk.
  - destruct (decide (k ∈ key <$> xs)) as [Hin|Hout].
    + destruct (IH (dict_set (key x) (val x) d) Hin) as (y & Hy & Hky & Hget).
      exists y. rewrite set_all_cons.
      split; [apply elem_of_cons; by right | done].
    + rewrite fmap_cons in Hk. apply elem_of_cons in Hk as [->|Hk]; [|done].
      exists x. split; [apply elem_of_cons; by left | split; [done|]].
      rewrite set_all_cons, get_set_all_other by done.
      apply dict_get_set_eq.
Qed.
End SetAll.
End OrderedDictFacts.

(** ** Row assembly *)

Lemma categorical_columns_set_all cols data input_data :
  categorical_columns cols data input_data
  = set_all (fun col => col)
      (fun col => [default (VStr nao_informado) (data !! col)]) cols input_data.
Proof. reflexivity. Qed.

Lemma categorical_columns_get cols data input_data col :
  col ∈ cols →
  dict_get col (categorical_columns cols data input_data)
  = Some [default (VStr nao_informado) (data !! col)].
Proof.
  intros Hin. rewrite categorical_columns_set_all.
  destruct (get_set_all_assigned (fun c => c)
              (fun c => [default (VStr nao_informado) (data !! c)])
              col cols input_data) as (x & _ & -> & Hget); [|done].
  by rewrite list_fmap_id.
Qed.

(** On a container the second loop never raises: it is a run of
    assignments. *)
Lemma difficulty_columns_iterable difficulties v input_data :
  iterable v = true →
  difficulty_columns difficulties v input_data
  = Ok (set_all clean_difficulty_name (fun d => flag (member_of v d))
          difficulties input_data).
Proof.
  intros Hv. revert input_data.
  induction difficulties as [|d ds IH]; intros input_data; [done|].
  rewrite set_all_cons, <- IH. unfold member_of.
  destruct v; try discriminate Hv; reflexivity.
Qed.

(** On anything else it raises at the first difficulty. *)
Lemma difficulty_columns_not_iterable d ds v input_data :
  iterable v = false →
  difficulty_columns (d :: ds) v input_data
  = Raise (TypeError
             ("argument of type '" +:+ type_name v +:+ "' is not iterable")).
Proof. intros Hv. destruct v; try discriminate Hv; reflexivity. Qed.

Lemma read_difficulties_iterable data :
  iterable (difficulties_field data) = true →
  iterable (read_difficulties data) = true.
Proof.
  unfold read_difficulties, difficulties_field.
  by destruct (default (VList []) (data !! campo_dificuldades)).
Qed.

Lemma build_input_iterable st data :
  iterable (difficulties_field data) = true →
  build_input st data
  = Ok (set_all clean_difficulty_name
          (fun d => flag (member_of (read_difficulties data) d))
          (all_difficulties st)
          (categorical_columns (categorical_cols_for_ohe st) data [])).
Proof.
  intros Hv. unfold build_input.
  by rewrite difficulty_columns_iterable by by apply read_difficulties_iterable.
Qed.

(** ** The [try] block always ends with a response *)

Lemma predict_and_answer_responds model input_df :
  ∃ status body printed,
    predict_and_answer model input_df = (Respond status body, printed).
Proof.
  unfold predict_and_answer.
  destruct (model input_df) as [c|[]]; eauto.
Qed.

Lemma predict_key_error model input_df k :
  model input_df = Raise (KeyError k) →
  predict_and_answer model input_df
  = (Respond 400 (error_body (msg_chave +:+ k)), []).
Proof. unfold predict_and_answer. by intros ->. Qed.

Lemma predict_other_error model input_df e :
  model input_df = Raise e →
  (∀ k, e ≠ KeyError k) →
  predict_and_answer model input_df
  = (Respond 500 (error_body (msg_interno +:+ exn_str e)),
     [msg_log +:+ exn_str e]).
Proof.
  unfold predict_and_answer. intros -> Hne.
  destruct e; try reflexivity. by destruct (Hne detail).
Qed.

Lemma recommend_assembled st model data input_df :
  pipeline st = Some model →
  dict_truthy data = true →
  build_input st data = Ok input_df →
  recommend st (JsonValue (VDict data)) = predict_and_answer model input_df.
Proof. unfold recommend. by intros -> -> ->. Qed.

Lemma recommend_responds_when_assembled st data input_df :
  build_input st data = Ok input_df →
  ∃ status body printed,
    recommend st (JsonValue (VDict data)) = (Respond status body, printed).
Proof.
  intros Hrow. unfold recommend.
  destruct (pipeline st) as [model|]; [|eauto].
  destruct (dict_truthy data); [|eauto].
  rewrite Hrow. apply predict_and_answer_responds.
Qed.

(** ** Categorical columns *)

(** C1 (as amended).  When the difficulties field of the request is absent,
    a string, a list or an object, and [col] is a categorical column that
    is not also the sanitized name of a canonical difficulty, the row is
    assembled, it holds under [col] the request's value for [col], or
    ['Não informado'] when the request has none, and the handler ends with
    a response. *)
Theorem categorical_column_filled st data col :
  col ∈ categorical_cols_for_ohe st →
  col ∉ clean_difficulty_name <$> all_difficulties st →
  iterable (difficulties_field data) = true →
  categorical_column_ok st data col.
Proof.
  intros Hcol Hfresh Hiter.
  pose proof (build_input_iterable st data Hiter) as Hrow.
  eexists. split; [exact Hrow|].
  assert (Hget : ∀ o, data !! col = o →
            dict_get col
              (set_all clean_difficulty_name
                 (fun d => flag (member_of (read_difficulties data) d))
                 (all_difficulties st)
                 (categorical_columns (categorical_cols_for_ohe st) data []))
            = Some [default (VStr nao_informado) o]).
  { intros o <-. rewrite get_set_all_other by done.
    by apply categorical_columns_get. }
  split; [|split].
  - intros Hnone. by rewrite (Hget _ Hnone).
  - intros v Hsome. by rewrite (Hget _ Hsome).
  - by eapply recommend_responds_when_assembled.
Qed.

Lemma categorical_column_filled_witness :
  categorical_column_ok demo_state demo_data "Genero" ∧
  categorical_column_ok demo_state demo_data "Idade".
Proof.
  split; apply categorical_column_filled;
    solve [ apply (bool_decide_unpack _); by vm_compute | by vm_compute ].
Defined.

(** ** Difficulties sent as one string or as a list *)

Section Split.
Variable c : ascii.

Lemma split_without s : has_char c s = false → PyStr.split c s = [s].
Proof.
  induction s as [|a s IH]; [done|]. simpl.
  intros [Ha Hs]%orb_false_elim. rewrite Ha. by rewrite IH.
Qed.

Lemma split_at_first s t :
  has_char c s = false →
  PyStr.split c (s +:+ String c t) = s :: PyStr.split c t.
Proof.
  induction s as [|a s IH]; simpl.
  - intros _. by rewrite bool_decide_eq_true_2.
  - intros [Ha Hs]%orb_false_elim. rewrite Ha. by rewrite IH.
Qed.

(** Splitting undoes joining when no segment holds the separator. *)
Lemma split_join l :
  l ≠ [] →
  Forall (fun s => has_char c s = false) l →
  PyStr.split c (PyStr.join (String c EmptyString) l) = l.
Proof.
  induction l as [|x [|y l] IH]; intros Hne Hall; [done| |].
  - apply split_without. by inversion Hall.
  - change (PyStr.join (String c EmptyString) (x :: y :: l))
      with (x +:+ String c (PyStr.join (String c EmptyString) (y :: l))).
    inversion Hall as [|? ? Hx Hrest]; subst.
    rewrite split_at_first by done. f_equal. by apply IH.
Qed.
End Split.

Lemma filter_all {A} (P : A → Prop) `{!∀ x, Decision (P x)} (l : list A) :
  Forall P l → filter P l = l.
Proof.
  induction 1 as [|x l Hx _ IH]; [done|].
  by rewrite filter_cons_True, IH.
Qed.

Lemma split_difficulties_join l :
  Forall plain_segment l → split_difficulties (PyStr.join "," l) = l.
Proof.
  intros Hall. destruct (decide (l = [])) as [->|Hne]; [done|].
  unfold split_difficulties. rewrite split_join; [|done|].
  - rewrite filter_all.
    + induction Hall as [|x l (_ & Hx & _) _ IH]; [done|].
      rewrite fmap_cons, Hx. f_equal.
      destruct l; [done|]. by apply IH.
    + eapply Forall_impl; [exact Hall|].
      intros x (_ & -> & Hx). by destruct x.
  - eapply Forall_impl; [exact Hall|]. by intros x (Hx & _).
Qed.

(** Whatever the string, it is read as the list of its trimmed non-empty
    segments. *)
Lemma read_difficulties_string s data :
  read_difficulties (with_difficulties (VStr s) data)
  = read_difficulties (with_difficulties (as_list (split_difficulties s)) data).
Proof.
  unfold read_difficulties, with_difficulties, as_list.
  by rewrite !lookup_insert_eq.
Qed.

Lemma same_flags_of_read st data1 data2 :
  iterable (difficulties_field data1) = true →
  iterable (difficulties_field data2) = true →
  read_difficulties data1 = read_difficulties data2 →
  same_flags st data1 data2.
Proof.
  intros H1 H2 Hread.
  do 2 eexists. split; [by apply build_input_iterable|].
  split; [by apply build_input_iterable|].
  intros d Hd. rewrite <- Hread.
  assert (Hk : clean_difficulty_name d ∈ clean_difficulty_name <$> all_difficulties st)
    by by apply list_elem_of_fmap_2.
  destruct (get_set_all_assigned clean_difficulty_name
              (fun d => flag (member_of (read_difficulties data1) d))
              _ _ (categorical_columns (categorical_cols_for_ohe st) data1 []) Hk)
    as (x & _ & _ & Hget).
  exists (member_of (read_difficulties data1) x). split; [done|].
  rewrite <- Hget. by apply get_set_all_base.
Qed.

(** C2 (as amended).  For every list of difficulty strings none of which
    is empty, holds a comma, or begins or ends with whitespace, sending
    the list joined by commas as one string gives, for every canonical
    difficulty, the same 0/1 column as sending the list itself. *)
Theorem joined_string_same_flags st data l :
  Forall plain_segment l →
  same_flags st
    (with_difficulties (as_joined_string l) data)
    (with_difficulties (as_list l) data).
Proof.
  intros Hall. apply same_flags_of_read.
  - unfold difficulties_field, with_difficulties. by rewrite lookup_insert_eq.
  - unfold difficulties_field, with_difficulties. by rewrite lookup_insert_eq.
  - unfold as_joined_string. rewrite read_difficulties_string.
    by rewrite split_difficulties_join.
Qed.

Lemma joined_string_same_flags_witness :
  same_flags demo_state
    (with_difficulties (as_joined_string ["Falta de tempo"; "Outro"]) demo_data)
    (with_difficulties (as_list ["Falta de tempo"; "Outro"]) demo_data).
Proof.
  apply joined_string_same_flags.
  repeat (constructor;
          [split; [by vm_compute | split; [by vm_compute | done]] |]).
  constructor.
Defined.

(** C1, as stated, fails twice over: a categorical column whose name is
    also the sanitized name of a difficulty is overwritten by the 0/1 flag,
    and a numeric difficulties field makes row assembly raise. *)
Lemma categorical_column_overwritten :
  ¬ categorical_column_ok collision_state demo_data "Dificuldade_Falta_de_tempo" ∧
  ¬ categorical_column_ok demo_state numeric_difficulties "Genero".
Proof.
  split.
  - intros (df & Hrow & Hnone & _).
    vm_compute in Hrow. injection Hrow as <-.
    assert (Habsent : demo_data !! "Dificuldade_Falta_de_tempo" = None)
      by by vm_compute.
    specialize (Hnone Habsent). vm_compute in Hnone. discriminate Hnone.
  - intros (df & Hrow & _). vm_compute in Hrow. discriminate Hrow.
Qed.

(** C2, as stated, fails for a segment that holds a comma: the list names
    the canonical difficulty, the joined string is cut in two. *)
Lemma joined_string_with_comma_differs :
  ¬ same_flags comma_state
      (with_difficulties (as_joined_string ["Falta de tempo, recursos"]) demo_data)
      (with_difficulties (as_list ["Falta de tempo, recursos"]) demo_data).
Proof.
  intros (df1 & df2 & H1 & H2 & Hflags).
  vm_compute in H1, H2. injection H1 as <-. injection H2 as <-.
  destruct (Hflags "Falta de tempo, recursos") as (b & Hb1 & Hb2).
  { apply (bool_decide_unpack _). by vm_compute. }
  vm_compute in Hb1, Hb2. destruct b; discriminate.
Qed.

(** ** Difficulties of another type *)


Lemma difficulty_columns_none_found difficulties v input_data :
  (∀ d, d ∈ difficulties → py_in d v = Ok false) →
  difficulty_columns difficulties v input_data
  = Ok (set_all clean_difficulty_name (fun _ => flag false)
          difficulties input_data).
Proof.
  revert input_data.
  induction difficulties as [|d ds IH]; intros input_data Hnone; [done|].
  rewrite set_all_cons, <- IH.
  - simpl. rewrite Hnone; [done | apply elem_of_cons; by left].
  - intros d' Hd'. apply Hnone, elem_of_cons. by right.
Qed.

Lemma existsb_eq_str d l : existsb (eq_str d) l = true ↔ VStr d ∈ l.
Proof.
  induction l as [|v l IH]; simpl.
  - split; [done | by intros ?%elem_of_nil].
  - rewrite orb_true_iff, IH, elem_of_cons. apply or_iff_compat_r.
    destruct v; simpl; try (split; [done | by intros [=]]).
    rewrite bool_decide_eq_true. split; [by intros -> | by intros [=]].
Qed.





(** ** The table and the 200 response *)

Lemma table_keys (c : Z) :
  is_Some (politicas_sugeridas_por_cluster !! c) ↔ (0 ≤ c ≤ 3)%Z.
Proof.
  unfold politicas_sugeridas_por_cluster.
  rewrite !lookup_insert_is_Some, lookup_empty, is_Some_alt. lia.
Qed.

Lemma table_unknown (c : Z) :
  (c < 0 ∨ 3 < c)%Z → politicas_sugeridas_por_cluster !! c = None.
Proof.
  intros Hc. apply eq_None_not_Some. rewrite table_keys. lia.
Qed.

Lemma table_lists_non_empty c recs :
  politicas_sugeridas_por_cluster !! c = Some recs → recs ≠ [].
Proof.
  unfold politicas_sugeridas_por_cluster.
  rewrite !lookup_insert_Some, lookup_empty.
  intros [[_ <-]|[_ [[_ <-]|[_ [[_ <-]|[_ [[_ <-]|[_ ?]]]]]]]]; done.
Qed.

Lemma recommendations_non_empty c :
  default sem_politica (politicas_sugeridas_por_cluster !! c) ≠ [].
Proof.
  destruct (politicas_sugeridas_por_cluster !! c) as [recs|] eqn:Hc; simpl.
  - by eapply table_lists_non_empty.
  - done.
Qed.

Lemma ok_response_shape st req body printed :
  recommend st req = (Respond 200 body, printed) →
  ∃ c recs, body = recommendation_body c recs ∧ recs ≠ [].
Proof.
  unfold recommend.
  destruct (pipeline st) as [model|]; [|discriminate].
  destruct req as [[| | | | | |data]|]; try discriminate.
  destruct (dict_truthy data); [|discriminate].
  destruct (build_input st data) as [input_df|]; [|discriminate].
  unfold predict_and_answer.
  destruct (model input_df) as [c|[]]; try discriminate.
  intros [= <-]. eauto using recommendations_non_empty.
Qed.

(** C4.  When the model returns an integer that is not a key of the table,
    the response is 200 with that cluster and the one-element fallback
    list; and every 200 response carries a non-empty recommendations
    list. *)
Theorem unknown_cluster_fallback st model data input_df c :
  pipeline st = Some model →
  dict_truthy data = true →
  build_input st data = Ok input_df →
  model input_df = Ok c →
  politicas_sugeridas_por_cluster !! c = None →
  recommend st (JsonValue (VDict data))
  = (Respond 200 (recommendation_body c sem_politica), []) ∧
  sem_politica = ["Nenhuma política sugerida para este perfil no momento."] ∧
  ∀ st' req' body printed,
    recommend st' req' = (Respond 200 body, printed) →
    ∃ c' recs,
      body = VDict (<["cluster" := VInt c']>
                      {[ "recommendations" := VList (VStr <$> recs) ]}) ∧
      recs ≠ [].
Proof.
  intros Hp Hd Hrow Hc Hkey. split; [|split; [done|]].
  - rewrite (recommend_assembled _ _ _ _ Hp Hd Hrow).
    unfold predict_and_answer. by rewrite Hc, Hkey.
  - intros st' req' body printed. apply ok_response_shape.
Qed.

Lemma unknown_cluster_fallback_witness :
  recommend (demo_state_with (fun _ => Ok 7)) (JsonValue (VDict demo_data))
  = (Respond 200 (recommendation_body 7 sem_politica), []).
Proof.
  eapply proj1, (unknown_cluster_fallback _ (fun _ => Ok 7) demo_data _ 7).
  - reflexivity.
  - by vm_compute.
  - reflexivity.
  - reflexivity.
  - by vm_compute.
Defined.

(** C8.  When the model returns 0, the response is 200, its cluster is the
    integer 0 and its recommendations are the five strings configured for
    cluster 0, in their order. *)
Theorem cluster_zero_policies st model data input_df :
  pipeline st = Some model →
  dict_truthy data = true →
  build_input st data = Ok input_df →
  model input_df = Ok 0 →
  recommend st (JsonValue (VDict data))
  = (Respond 200
       (VDict (<["cluster" := VInt 0]>
                 {[ "recommendations" := VList (VStr <$> politicas_cluster_0) ]})),
     []) ∧
  politicas_cluster_0
  = [ "Criar editais específicos para grupos vulneráveis (PCD, baixa renda, sem formação).";
      "Garantir bolsas de apoio financeiro para participação em oficinas e cursos.";
      "Criar programas de capacitação inicial em arte e cultura voltados à inclusão social.";
      "Oferecer apoio logístico (transporte, alimentação) para participação em atividades culturais.";
      "Incentivar projetos de arte comunitária em bairros periféricos." ].
Proof.
  intros Hp Hd Hrow Hc. split; [|done].
  rewrite (recommend_assembled _ _ _ _ Hp Hd Hrow).
  unfold predict_and_answer. by rewrite Hc.
Qed.

Lemma cluster_zero_policies_witness :
  recommend demo_state (JsonValue (VDict demo_data))
  = (Respond 200 (recommendation_body 0 politicas_cluster_0), []).
Proof.
  eapply proj1, (cluster_zero_policies demo_state (fun _ => Ok 0) demo_data).
  - reflexivity.
  - by vm_compute.
  - reflexivity.
  - reflexivity.
Defined.

(** ** Exceptions *)

(** What the [try] block does with an exception of the model: 400 naming
    the key for a [KeyError], 500 with the message for any other. *)
Lemma predict_exception_translated st model data input_df e :
  pipeline st = Some model →
  dict_truthy data = true →
  build_input st data = Ok input_df →
  model input_df = Raise e →
  ∃ status msg printed,
    recommend st (JsonValue (VDict data))
    = (Respond status (error_body msg), printed) ∧
    ((∃ k, e = KeyError k ∧ status = 400 ∧ msg = msg_chave +:+ k) ∨
     ((∀ k, e ≠ KeyError k) ∧ status = 500 ∧ msg = msg_interno +:+ exn_str e)).
Proof.
  intros Hp Hd Hrow He.
  rewrite (recommend_assembled _ _ _ _ Hp Hd Hrow).
  assert (Hkind : (∃ k, e = KeyError k) ∨ (∀ k, e ≠ KeyError k))
    by (destruct e; eauto).
  destruct Hkind as [[k ->]|Hne].
  - rewrite (predict_key_error _ _ _ He). eauto 10.
  - rewrite (predict_other_error _ _ _ He Hne).
    do 3 eexists. split; [reflexivity|]. by right.
Qed.

(** An exception of row assembly is outside the [try]: with a loaded
    model, some canonical difficulty and a difficulties field that is not
    a container, it leaves the handler. *)
Lemma row_exception_uncaught st model data d ds :
  pipeline st = Some model →
  dict_truthy data = true →
  all_difficulties st = d :: ds →
  iterable (difficulties_field data) = false →
  recommend st (JsonValue (VDict data))
  = (Uncaught
       (TypeError
          ("argument of type '" +:+ type_name (difficulties_field data)
             +:+ "' is not iterable")),
     []).
Proof.
  intros Hp Hd Hds Hv. unfold recommend, build_input.
  rewrite Hp, Hd, Hds.
  assert (Hread : read_difficulties data = difficulties_field data).
  { unfold read_difficulties. fold (difficulties_field data).
    by destruct (difficulties_field data). }
  rewrite Hread, difficulty_columns_not_iterable by done. reflexivity.
Qed.

(** C5 at a failing request: the body is a non-empty object whose
    difficulties field is the number 5; the [TypeError] of line 107 is not
    turned into a 400 or 500 answer, it leaves the handler. *)
Theorem numeric_difficulties_uncaught :
  recommend demo_state (JsonValue (VDict numeric_difficulties))
  = (Uncaught (TypeError "argument of type 'int' is not iterable"), []).
Proof. reflexivity. Qed.

(** ** Invalid bodies and the absent model *)

Lemma dict_truthy_empty : dict_truthy ∅ = false.
Proof. reflexivity. Qed.

Lemma dict_truthy_iff data : dict_truthy data = true ↔ data ≠ ∅.
Proof.
  unfold dict_truthy. rewrite negb_true_iff, bool_decide_eq_false.
  apply map_size_non_empty_iff.
Qed.

(** C6 (as amended).  With the model loaded, whenever [request.json]
    gives a value that is not a non-empty object ([None], a list, a string,
    a number, a boolean or the empty object), the answer is 400 with a
    JSON body holding an [error] string. *)
Theorem invalid_body_rejected st model v :
  pipeline st = Some model →
  (∀ data, v = VDict data → data = ∅) →
  recommend st (JsonValue v)
  = (Respond 400 (VDict {[ "error" := VStr msg_invalida ]}), []).
Proof.
  intros Hp Hv. unfold recommend. rewrite Hp.
  destruct v as [| | | | | |data]; try reflexivity.
  by rewrite (Hv data eq_refl), dict_truthy_empty.
Qed.

Lemma invalid_body_rejected_witness :
  recommend demo_state (JsonValue (VDict ∅))
  = (Respond 400 (VDict {[ "error" := VStr msg_invalida ]}), []) ∧
  recommend demo_state (JsonValue VNone)
  = (Respond 400 (VDict {[ "error" := VStr msg_invalida ]}), []) ∧
  recommend demo_state (JsonValue (VList [VInt 1]))
  = (Respond 400 (VDict {[ "error" := VStr msg_invalida ]}), []).
Proof.
  split; [|split];
    apply (invalid_body_rejected demo_state (fun _ => Ok 0));
    first [ reflexivity | by intros data [= <-] | by intros data [=] ].
Defined.

Lemma recommend_without_model st req :
  pipeline st = None →
  recommend st req = (Respond 503 (error_body msg_indisponivel), []).
Proof. unfold recommend. by intros ->. Qed.

(** C6, as stated, fails for a body that is missing: [request.json]
    ends the request at line 88 with Flask's own error, and the check of
    line 91 with its JSON answer is not reached. *)
Lemma missing_body_not_answered :
  recommend demo_state no_body = (Aborted 415, []) ∧
  ¬ rejected_as_invalid demo_state no_body.
Proof.
  split; [reflexivity|].
  intros (msg & printed & Hanswer). discriminate Hanswer.
Qed.

(** C10.  While the model is absent every request gets 503, whatever
    [request.json] would have given: the check of line 83 comes first. *)
Theorem absent_model_503 st req :
  pipeline st = None →
  recommend st req
  = (Respond 503 (VDict {[ "error" := VStr msg_indisponivel ]}), []).
Proof. apply recommend_without_model. Qed.

Lemma absent_model_503_witness :
  recommend degraded (JsonValue (VDict ∅))
  = (Respond 503 (VDict {[ "error" := VStr msg_indisponivel ]}), []) ∧
  recommend degraded (JsonValue VNone)
  = (Respond 503 (VDict {[ "error" := VStr msg_indisponivel ]}), []) ∧
  recommend degraded (JsonAbort 415)
  = (Respond 503 (VDict {[ "error" := VStr msg_indisponivel ]}), []).
Proof. split; [|split]; by apply absent_model_503. Defined.

(** ** Start-up *)

Lemma load_all_fails fs :
  fails (joblib_load fs) ∨ fails (load_politicas_base fs) ∨
  fails (load_all_difficulties fs) ∨ fails (load_categorical_cols fs) →
  fails (load_all fs).
Proof.
  unfold fails, load_all.
  destruct (joblib_load fs) as [p|e1]; [|by eauto].
  destruct (load_politicas_base fs) as [pb|e2]; [|by eauto].
  destruct (load_all_difficulties fs) as [ds|e3]; [|by eauto].
  destruct (load_categorical_cols fs) as [cs|e4]; [|by eauto].
  intros [[e ?]|[[e ?]|[[e ?]|[e ?]]]]; discriminate.
Qed.

Lemma startup_degraded fs : fails (load_all fs) → (startup fs).1 = degraded.
Proof. intros [e He]. unfold startup. rewrite He. by destruct e. Qed.

(** C7.  If reading the model or one of the three JSON files raises, the
    module still finishes loading, with the model absent and the three
    collections empty, and from then on every request gets 503 with a JSON
    error body. *)
Theorem failed_load_degrades fs :
  fails (joblib_load fs) ∨ fails (load_politicas_base fs) ∨
  fails (load_all_difficulties fs) ∨ fails (load_categorical_cols fs) →
  ∃ st printed,
    startup fs = (st, printed) ∧
    pipeline st = None ∧
    politicas_base st = VDict ∅ ∧
    all_difficulties st = [] ∧
    categorical_cols_for_ohe st = [] ∧
    ∀ req,
      recommend st req
      = (Respond 503 (VDict {[ "error" := VStr msg_indisponivel ]}), []).
Proof.
  intros Hfail%load_all_fails%startup_degraded.
  destruct (startup fs) as [st printed]. simpl in Hfail. subst st.
  exists degraded, printed. split; [done|]. do 4 (split; [reflexivity|]).
  intros req. by apply recommend_without_model.
Qed.

Lemma failed_load_degrades_witness :
  ∃ st printed,
    startup no_model_file = (st, printed) ∧
    pipeline st = None ∧
    politicas_base st = VDict ∅ ∧
    all_difficulties st = [] ∧
    categorical_cols_for_ohe st = [] ∧
    ∀ req,
      recommend st req
      = (Respond 503 (VDict {[ "error" := VStr msg_indisponivel ]}), []).
Proof.
  apply failed_load_degrades. left. unfold fails. simpl. eauto.
Defined.

(** ** Serving the same request twice *)

(** The statements of the handler give the answer of [recommend], leave
    the module-level names as they were and add the printed lines. *)
Lemma serve_recommend req p :
  serve req p
  = ((recommend (globals p) req).1,
     {| globals := globals p;
        stdout := stdout p ++ (recommend (globals p) req).2 |}).
Proof.
  destruct p as [st out].
  unfold serve, recommend_handler, recommend, read_global. simpl.
  unfold mbind, handler_bind. simpl.
  destruct (pipeline st) as [model|]; simpl; [|by rewrite app_nil_r].
  destruct req as [v|status]; simpl; [|by rewrite app_nil_r].
  destruct v as [| | | | | |data]; simpl; try by rewrite app_nil_r.
  destruct (dict_truthy data); simpl; [|by rewrite app_nil_r].
  unfold build_input, mbind, result_bind, evaluate, predict_and_answer.
  destruct (difficulty_columns _ _ _) as [input_data|e]; simpl;
    [|by rewrite app_nil_r].
  destruct (model (pd_DataFrame input_data)) as [c|[]]; simpl;
    by rewrite ?app_nil_r.
Qed.

(** Not every handler keeps the module-level names: one with an
    assignment to them does not. *)
Example assignment_changes_globals :
  let p := {| globals := demo_state; stdout := [] |} in
  match forgetful_handler (JsonValue (VDict demo_data)) p with
  | (_, p') => all_difficulties (globals p') = []
  end ∧
  all_difficulties (globals (serve (JsonValue (VDict demo_data)) p).2)
  = ["Falta de tempo"; "Falta de recursos"; "Outro"].
Proof. split; by vm_compute. Qed.

(** C9.  Serving the same body twice in a row gives the same outcome both
    times (status, cluster and recommendations), and the model and the
    support data are after each call what they were before the first:
    the handler only reads them. *)
Theorem same_request_same_answer p req :
  ∃ answer p1 p2,
    serve req p = (answer, p1) ∧
    serve req p1 = (answer, p2) ∧
    globals p1 = globals p ∧
    globals p2 = globals p.
Proof.
  do 3 eexists. split; [apply serve_recommend|].
  split; [rewrite serve_recommend; reflexivity|].
  split; reflexivity.
Qed.

(** * Further properties of the code *)

(** ** Characters of strings *)

Section Chars.
Variable c : ascii.

Lemma has_char_app s t :
  has_char c (s +:+ t) = has_char c s || has_char c t.
Proof.
  induction s as [|a s IH]; [done|]. simpl. by rewrite IH, orb_assoc.
Qed.

Lemma has_char_drop n s :
  has_char c s = false → has_char c (PyStr.drop n s) = false.
Proof.
  revert s. induction n as [|n IH]; intros [|a s]; simpl; try done.
  intros [_ Hs]%orb_false_elim. by apply IH.
Qed.

Lemma has_char_rev_app s t :
  has_char c (String.rev_app s t) = has_char c s || has_char c t.
Proof.
  revert t. induction s as [|a s IH]; intros t; [done|]. simpl.
  rewrite IH. simpl. by destruct (bool_decide (a = c)), (has_char c s).
Qed.

Lemma has_char_rev s : has_char c (String.rev s) = has_char c s.
Proof. unfold String.rev. by rewrite has_char_rev_app, orb_false_r. Qed.

Lemma has_char_lstrip_go ws fuel s :
  has_char c s = false → has_char c (PyStr.lstrip_go ws fuel s) = false.
Proof.
  revert s. induction fuel as [|fuel IH]; intros s Hs; [done|]. simpl.
  destruct (find _ ws); [|done]. by apply IH, has_char_drop.
Qed.

Lemma has_char_strip s :
  has_char c s = false → has_char c (PyStr.strip s) = false.
Proof.
  intros Hs. unfold PyStr.strip, PyStr.rstrip, PyStr.lstrip.
  rewrite has_char_rev. apply has_char_lstrip_go.
  rewrite has_char_rev. by apply has_char_lstrip_go.
Qed.

(** No piece of a split holds the separator. *)
Lemma split_pieces s x : x ∈ PyStr.split c s → has_char c x = false.
Proof.
  revert x. induction s as [|a s IH]; intros x; simpl.
  - by intros ->%list_elem_of_singleton.
  - destruct (bool_decide (a = c)) eqn:Ha.
    + intros [->|Hx]%elem_of_cons; [done | by apply IH].
    + destruct (PyStr.split c s) as [|h t] eqn:Hsplit.
      * intros ->%list_elem_of_singleton. simpl. by rewrite Ha.
      * intros [->|Hx]%elem_of_cons.
        -- simpl. rewrite Ha. apply IH, elem_of_cons. by left.
        -- apply IH, elem_of_cons. by right.
Qed.

(** Replacing brings in no character that is in neither the string nor
    the replacement. *)
Lemma has_char_replace_from skip old new s :
  has_char c new = false → has_char c s = false →
  has_char c (PyStr.replace_from skip old new s) = false.
Proof.
  intros Hnew. revert skip.
  induction s as [|a s IH]; intros skip Hs; [done|].
  simpl in Hs. apply orb_false_elim in Hs as [Ha Hs]. simpl.
  destruct skip as [|k]; [|by apply IH].
  destruct (PyStr.prefix old (String a s)).
  - rewrite has_char_app, Hnew. by apply IH.
  - simpl. rewrite Ha. by apply IH.
Qed.

(** Replacing a character removes it, unless the replacement holds it. *)
Lemma has_char_replace_char new s :
  has_char c new = false →
  has_char c (PyStr.replace (String c EmptyString) new s) = false.
Proof.
  intros Hnew. unfold PyStr.replace.
  induction s as [|a s IH]; [done|]. simpl.
  destruct (bool_decide (c = a)) eqn:Hca; simpl.
  - by rewrite has_char_app, Hnew.
  - rewrite IH, orb_false_r. apply bool_decide_eq_false.
    apply bool_decide_eq_false in Hca. congruence.
Qed.

Lemma replace_keeps_out old new s :
  has_char c new = false →
  has_char c s = false ∨ old = String c EmptyString →
  has_char c (PyStr.replace old new s) = false.
Proof.
  intros Hnew [Hs| ->].
  - by apply has_char_replace_from.
  - by apply has_char_replace_char.
Qed.
End Chars.

(** A pattern that does not occur is not replaced. *)
Lemma replace_absent old new s :
  PyStr.contains old s = false → PyStr.replace old new s = s.
Proof.
  unfold PyStr.replace. induction s as [|a s IH]; [done|].
  cbn [PyStr.contains]. intros [Hp Hs]%orb_false_elim.
  cbn [PyStr.replace_from]. rewrite Hp. f_equal. by apply IH.
Qed.

(** ** Sanitized column names (line 106) *)

(** X1.  The column name of a difficulty starts with [Dificuldade_] and
    holds no space, slash, hyphen, parenthesis, colon or full stop,
    whatever the difficulty. *)
Theorem clean_name_characters difficulty :
  PyStr.prefix "Dificuldade_" (clean_difficulty_name difficulty) = true ∧
  ∀ c, c ∈ sanitized_away →
    has_char c (clean_difficulty_name difficulty) = false.
Proof.
  split; [reflexivity|].
  intros c Hc. unfold clean_difficulty_name.
  rewrite has_char_app.
  unfold sanitized_away in Hc.
  repeat (apply elem_of_cons in Hc as [->|Hc];
          [ apply orb_false_intro; [reflexivity|];
            repeat (apply replace_keeps_out;
                    [reflexivity | first [right; reflexivity | left]]) |]).
  by apply elem_of_nil in Hc.
Qed.

(** X2.  A difficulty in which none of the eight patterns occurs keeps its
    text: the column name is the prefix followed by the difficulty. *)
Theorem clean_name_of_plain difficulty :
  (∀ old, old ∈ sanitizer_patterns → PyStr.contains old difficulty = false) →
  clean_difficulty_name difficulty = "Dificuldade_" +:+ difficulty.
Proof.
  intros Hplain. unfold clean_difficulty_name.
  assert (Hrep : ∀ old new, old ∈ sanitizer_patterns →
            PyStr.replace old new difficulty = difficulty).
  { intros old new Hold. by apply replace_absent, Hplain. }
  unfold sanitizer_patterns in Hrep.
  rewrite !Hrep; [done|..]; apply (bool_decide_unpack _); by vm_compute.
Qed.

Lemma clean_name_of_plain_witness :
  clean_difficulty_name "Falta_de_tempo" = "Dificuldade_" +:+ "Falta_de_tempo".
Proof.
  apply clean_name_of_plain. intros old Hold. unfold sanitizer_patterns in Hold.
  repeat (apply elem_of_cons in Hold as [->|Hold]; [reflexivity|]).
  by apply elem_of_nil in Hold.
Defined.

(** ** The segments of a difficulties string (line 102) *)

(** X3.  Whatever the string, none of the segments kept is empty and none
    holds a comma. *)
Theorem split_difficulties_segments s d :
  d ∈ split_difficulties s → d ≠ "" ∧ has_char "," d = false.
Proof.
  unfold split_difficulties.
  intros (x & -> & Hx)%list_elem_of_fmap.
  apply list_elem_of_filter in Hx as [Htruthy Hx]. split.
  - intros Hempty. by rewrite Hempty in Htruthy.
  - by apply has_char_strip, (split_pieces _ s).
Qed.

Lemma split_difficulties_segments_witness :
  "Outro" ≠ "" ∧ has_char "," "Outro" = false.
Proof.
  apply (split_difficulties_segments " Falta de tempo ,, Outro ,").
  apply (bool_decide_unpack _). by vm_compute.
Defined.

(** ** Segments separated by a comma and a space *)

Lemma lstrip_space s : PyStr.lstrip (String " " s) = PyStr.lstrip s.
Proof. reflexivity. Qed.

Lemma strip_space s : PyStr.strip (String " " s) = PyStr.strip s.
Proof. unfold PyStr.strip. by rewrite lstrip_space. Qed.

Lemma split_spaced_join x l :
  Forall (fun s => has_char "," s = false) (x :: l) →
  PyStr.split "," (PyStr.join ", " (x :: l)) = x :: (String " " <$> l).
Proof.
  revert x. induction l as [|y l IH]; intros x Hall.
  - apply split_without. by inversion Hall.
  - inversion Hall as [|? ? Hx Hrest]; subst.
    change (PyStr.join ", " (x :: y :: l))
      with (x +:+ String "," (String " " (PyStr.join ", " (y :: l)))).
    rewrite split_at_first by done. f_equal.
    cbn [PyStr.split]. rewrite bool_decide_eq_false_2 by done.
    by rewrite IH.
Qed.

Lemma split_difficulties_spaced_join l :
  Forall plain_segment l → split_difficulties (PyStr.join ", " l) = l.
Proof.
  intros Hall. destruct l as [|x l]; [done|].
  unfold split_difficulties. rewrite split_spaced_join.
  2:{ eapply Forall_impl; [exact Hall|]. by intros s (Hs & _). }
  inversion Hall as [|? ? (_ & Hx & Hxne) Hrest]; subst.
  rewrite filter_cons_True by (rewrite Hx; by destruct x).
  rewrite fmap_cons, Hx. f_equal.
  clear Hall Hx Hxne. induction Hrest as [|y l (_ & Hy & Hyne) _ IH]; [done|].
  rewrite fmap_cons, filter_cons_True
    by (rewrite strip_space, Hy; by destruct y).
  by rewrite fmap_cons, strip_space, Hy, IH.
Qed.

(** X4.  For segments that are non-empty, hold no comma and have no
    whitespace at either end, the string that separates them by a comma
    and a space gives the same 0/1 columns as the list. *)
Theorem spaced_string_same_flags st data l :
  Forall plain_segment l →
  same_flags st
    (with_difficulties (as_spaced_string l) data)
    (with_difficulties (as_list l) data).
Proof.
  intros Hall. apply same_flags_of_read.
  - unfold difficulties_field, with_difficulties. by rewrite lookup_insert_eq.
  - unfold difficulties_field, with_difficulties. by rewrite lookup_insert_eq.
  - unfold as_spaced_string. rewrite read_difficulties_string.
    by rewrite split_difficulties_spaced_join.
Qed.

Lemma spaced_string_same_flags_witness :
  same_flags demo_state
    (with_difficulties
       (as_spaced_string ["Falta de tempo"; "Falta de recursos"]) demo_data)
    (with_difficulties (as_list ["Falta de tempo"; "Falta de recursos"]) demo_data).
Proof.
  apply spaced_string_same_flags.
  repeat (constructor;
          [split; [by vm_compute | split; [by vm_compute | done]] |]).
  constructor.
Defined.

(** ** What a difficulty column holds *)

Section SetAllOrder.
Context {A X : Type} (key : X → string) (val : X → A).

Lemma set_all_app xs ys (d : list (string * A)) :
  set_all key val (xs ++ ys) d = set_all key val ys (set_all key val xs d).
Proof. unfold set_all. apply fold_left_app. Qed.

(** The last assignment to a key is the one that stays. *)
Lemma get_set_all_last xs x ys d :
  key x ∉ key <$> ys →
  dict_get (key x) (set_all key val (xs ++ x :: ys) d) = Some (val x).
Proof.
  intros Hlast. rewrite set_all_app, set_all_cons.
  rewrite get_set_all_other by done. apply dict_get_set_eq.
Qed.

(** Two runs over the same keys with the same values agree on every key
    they assign, whatever they start from. *)
Lemma get_set_all_ext (val' : X → A) k xs d1 d2 :
  k ∈ key <$> xs →
  (∀ x, x ∈ xs → val x = val' x) →
  dict_get k (set_all key val xs d1) = dict_get k (set_all key val' xs d2).
Proof.
  revert d1 d2. induction xs as [|x xs IH]; intros d1 d2 Hk Hval.
  - by apply elem_of_nil in Hk.
  - rewrite !set_all_cons.
    assert (Hrest : ∀ y, y ∈ xs → val y = val' y)
      by (intros y Hy; apply Hval, elem_of_cons; by right).
    destruct (decide (k ∈ key <$> xs)) as [Hin|Hout]; [by apply IH|].
    rewrite fmap_cons in Hk. apply elem_of_cons in Hk as [->|Hk]; [|done].
    rewrite !get_set_all_other, !dict_get_set_eq by done.
    f_equal. apply Hval, elem_of_cons. by left.
Qed.
End SetAllOrder.

Lemma member_of_list d l : member_of (VList l) d = true ↔ VStr d ∈ l.
Proof. apply existsb_eq_str. Qed.

Lemma member_of_strings d (l : list string) :
  member_of (VList (VStr <$> l)) d = true ↔ d ∈ l.
Proof.
  rewrite member_of_list, list_elem_of_fmap. split.
  - by intros (x & [= ->] & Hx).
  - intros Hd. by exists d.
Qed.

Lemma build_input_last st data ds1 d ds2 :
  iterable (difficulties_field data) = true →
  all_difficulties st = (ds1 ++ d :: ds2)%list →
  clean_difficulty_name d ∉ clean_difficulty_name <$> ds2 →
  ∃ input_df,
    build_input st data = Ok input_df ∧
    dict_get (clean_difficulty_name d) input_df
    = Some (flag (member_of (read_difficulties data) d)).
Proof.
  intros Hv Hds Hlast. rewrite (build_input_iterable st data Hv).
  eexists. split; [reflexivity|].
  rewrite Hds.
  by apply (get_set_all_last clean_difficulty_name
              (fun d => flag (member_of (read_difficulties data) d))).
Qed.

(** X5.  Difficulties sent as a list: the column of a canonical difficulty
    that is the last of the vocabulary with its column name holds 1 when
    the list has that difficulty among its elements, and 0 when it has
    not. *)
Theorem listed_difficulty_flag st data l ds1 d ds2 :
  data !! campo_dificuldades = Some (VList l) →
  all_difficulties st = (ds1 ++ d :: ds2)%list →
  clean_difficulty_name d ∉ clean_difficulty_name <$> ds2 →
  ∃ input_df,
    build_input st data = Ok input_df ∧
    (VStr d ∈ l →
     dict_get (clean_difficulty_name d) input_df = Some [VInt 1]) ∧
    (VStr d ∉ l →
     dict_get (clean_difficulty_name d) input_df = Some [VInt 0]).
Proof.
  intros Hl Hds Hlast.
  assert (Hiter : iterable (difficulties_field data) = true)
    by (unfold difficulties_field; by rewrite Hl).
  destruct (build_input_last st data ds1 d ds2 Hiter Hds Hlast)
    as (df & Hrow & Hget).
  exists df. split; [done|].
  assert (Hread : read_difficulties data = VList l)
    by (unfold read_difficulties; by rewrite Hl).
  rewrite Hread in Hget. rewrite Hget.
  split; intros Hd.
  - apply member_of_list in Hd. by rewrite Hd.
  - destruct (member_of (VList l) d) eqn:Hm; [|done].
    by apply member_of_list in Hm.
Qed.

Lemma listed_difficulty_flag_witness :
  ∃ input_df,
    build_input shared_name_state
      {[ campo_dificuldades := VList [VStr "Falta de tempo"; VInt 3] ]}
    = Ok input_df ∧
    (VStr "Falta-de-tempo" ∈ [VStr "Falta de tempo"; VInt 3] →
     dict_get (clean_difficulty_name "Falta-de-tempo") input_df = Some [VInt 1]) ∧
    (VStr "Falta-de-tempo" ∉ [VStr "Falta de tempo"; VInt 3] →
     dict_get (clean_difficulty_name "Falta-de-tempo") input_df = Some [VInt 0]).
Proof.
  apply (listed_difficulty_flag shared_name_state _ _
           ["Falta de tempo"] "Falta-de-tempo" ["Outro"]).
  - reflexivity.
  - reflexivity.
  - apply (bool_decide_unpack _). by vm_compute.
Defined.

(** X6.  Difficulties sent as a string: the column of a canonical
    difficulty that is the last of the vocabulary with its column name
    holds 1 when the difficulty is one of the trimmed, non-empty segments
    of the string, and 0 when it is not. *)
Theorem written_difficulty_flag st data s ds1 d ds2 :
  data !! campo_dificuldades = Some (VStr s) →
  all_difficulties st = (ds1 ++ d :: ds2)%list →
  clean_difficulty_name d ∉ clean_difficulty_name <$> ds2 →
  ∃ input_df,
    build_input st data = Ok input_df ∧
    (d ∈ split_difficulties s →
     dict_get (clean_difficulty_name d) input_df = Some [VInt 1]) ∧
    (d ∉ split_difficulties s →
     dict_get (clean_difficulty_name d) input_df = Some [VInt 0]).
Proof.
  intros Hs Hds Hlast.
  assert (Hiter : iterable (difficulties_field data) = true)
    by (unfold difficulties_field; by rewrite Hs).
  destruct (build_input_last st data ds1 d ds2 Hiter Hds Hlast)
    as (df & Hrow & Hget).
  exists df. split; [done|].
  assert (Hread : read_difficulties data
                  = VList (VStr <$> split_difficulties s))
    by (unfold read_difficulties; by rewrite Hs).
  rewrite Hread in Hget. rewrite Hget.
  split; intros Hd.
  - apply member_of_strings in Hd. by rewrite Hd.
  - destruct (member_of (VList (VStr <$> split_difficulties s)) d) eqn:Hm;
      [|done].
    by apply member_of_strings in Hm.
Qed.

Lemma written_difficulty_flag_witness :
  ∃ input_df,
    build_input demo_state
      {[ campo_dificuldades := VStr " Outro ,Falta de tempo e recursos" ]}
    = Ok input_df ∧
    ("Outro" ∈ split_difficulties " Outro ,Falta de tempo e recursos" →
     dict_get (clean_difficulty_name "Outro") input_df = Some [VInt 1]) ∧
    ("Outro" ∉ split_difficulties " Outro ,Falta de tempo e recursos" →
     dict_get (clean_difficulty_name "Outro") input_df = Some [VInt 0]).
Proof.
  apply (written_difficulty_flag demo_state _ _
           ["Falta de tempo"; "Falta de recursos"] "Outro" []).
  - reflexivity.
  - reflexivity.
  - apply not_elem_of_nil.
Defined.

(** ** The shape of the row *)

Section DictShape.
Context {A : Type}.
Implicit Types (d : list (string * A)) (k : string) (v : A).

Lemma dict_set_fresh k v d : k ∉ d.*1 → dict_set k v d = (d ++ [(k, v)])%list.
Proof.
  induction d as [|[k' v'] d IH]; [done|]. simpl.
  intros [Hne Hk]%not_elem_of_cons.
  rewrite decide_False by done. by rewrite IH.
Qed.

Lemma dict_set_columns k v d x :
  x ∈ (dict_set k v d).*1 ↔ x = k ∨ x ∈ d.*1.
Proof.
  induction d as [|[k' v'] d IH]; simpl.
  - rewrite list_elem_of_singleton, elem_of_nil. tauto.
  - destruct (decide (k' = k)) as [->|Hne]; simpl.
    + rewrite elem_of_cons. tauto.
    + rewrite !elem_of_cons, IH. tauto.
Qed.

Lemma dict_set_NoDup k v d : NoDup d.*1 → NoDup (dict_set k v d).*1.
Proof.
  induction d as [|[k' v'] d IH]; simpl.
  - intros _. apply NoDup_singleton.
  - intros [Hk' Hd]%NoDup_cons.
    destruct (decide (k' = k)) as [->|Hne]; simpl.
    + by apply NoDup_cons.
    + apply NoDup_cons. split; [|by apply IH].
      rewrite dict_set_columns. intros [->|Hin]; done.
Qed.

Lemma dict_set_Forall (P : A → Prop) k v d :
  P v → Forall (fun p => P p.2) d → Forall (fun p => P p.2) (dict_set k v d).
Proof.
  intros Hv. induction 1 as [|[k' v'] d Hp Hd IH]; simpl.
  - by repeat constructor.
  - destruct (decide (k' = k)); constructor; done.
Qed.

Section Runs.
Context {X : Type} (key : X → string) (val : X → A).

Lemma set_all_fresh xs d :
  NoDup (d.*1 ++ (key <$> xs)) →
  set_all key val xs d = (d ++ ((fun x => (key x, val x)) <$> xs))%list.
Proof.
  revert d. induction xs as [|x xs IH]; intros d Hnd.
  - by rewrite app_nil_r.
  - rewrite set_all_cons. rewrite fmap_cons in Hnd.
    assert (Hx : key x ∉ d.*1).
    { apply NoDup_app in Hnd as (_ & Hdisj & _).
      intros Hin. apply (Hdisj _ Hin), elem_of_cons. by left. }
    rewrite dict_set_fresh by done. rewrite IH.
    + by rewrite <- app_assoc.
    + rewrite fmap_app. simpl. by rewrite <- app_assoc.
Qed.

Lemma set_all_columns xs d x :
  x ∈ (set_all key val xs d).*1 ↔ x ∈ d.*1 ∨ x ∈ key <$> xs.
Proof.
  revert d. induction xs as [|y xs IH]; intros d.
  - rewrite fmap_nil, elem_of_nil. unfold set_all. simpl. tauto.
  - rewrite set_all_cons, IH, dict_set_columns, fmap_cons, elem_of_cons. tauto.
Qed.

Lemma set_all_NoDup xs d : NoDup d.*1 → NoDup (set_all key val xs d).*1.
Proof.
  revert d. induction xs as [|y xs IH]; intros d Hd; [done|].
  rewrite set_all_cons. by apply IH, dict_set_NoDup.
Qed.

Lemma set_all_Forall (P : A → Prop) xs d :
  (∀ x, P (val x)) →
  Forall (fun p => P p.2) d → Forall (fun p => P p.2) (set_all key val xs d).
Proof.
  intros Hval. revert d. induction xs as [|y xs IH]; intros d Hd; [done|].
  rewrite set_all_cons. by apply IH, dict_set_Forall.
Qed.
End Runs.
End DictShape.

(** X7.  When the categorical names and the column names of the
    difficulties are all different, the frame handed to the model has the
    categorical columns in the order of their vocabulary, each with the
    request's value or the default, followed by one 0/1 column per
    difficulty in the order of theirs. *)
Theorem row_in_vocabulary_order st data :
  NoDup (categorical_cols_for_ohe st ++
         (clean_difficulty_name <$> all_difficulties st)) →
  iterable (difficulties_field data) = true →
  build_input st data = Ok (plain_row st data) ∧
  columns (plain_row st data)
  = (categorical_cols_for_ohe st ++
     (clean_difficulty_name <$> all_difficulties st))%list.
Proof.
  intros Hnd Hiter. rewrite (build_input_iterable st data Hiter).
  assert (Hcols : ∀ (f : string → list value) (cols : list string),
            ((fun col => (col, f col)) <$> cols).*1 = cols).
  { intros f cols. rewrite <- list_fmap_compose. apply list_fmap_id. }
  rewrite categorical_columns_set_all.
  rewrite (set_all_fresh (fun col => col)).
  2:{ simpl. rewrite list_fmap_id. by apply NoDup_app in Hnd as (? & _ & _). }
  simpl. rewrite (set_all_fresh clean_difficulty_name) by by rewrite Hcols.
  split; [reflexivity|].
  unfold columns, plain_row. rewrite fmap_app, Hcols.
  f_equal. by rewrite <- list_fmap_compose.
Qed.

Lemma row_in_vocabulary_order_witness :
  build_input demo_state demo_data = Ok (plain_row demo_state demo_data) ∧
  columns (plain_row demo_state demo_data)
  = (categorical_cols_for_ohe demo_state ++
     (clean_difficulty_name <$> all_difficulties demo_state))%list.
Proof.
  apply row_in_vocabulary_order.
  - apply (bool_decide_unpack _). by vm_compute.
  - reflexivity.
Defined.

(** X8.  Whatever the vocabularies, the frame has no column twice, its
    columns are exactly the categorical names and the column names of the
    difficulties, and every column has exactly one value. *)
Theorem row_shape st data :
  iterable (difficulties_field data) = true →
  ∃ input_df,
    build_input st data = Ok input_df ∧
    NoDup (columns input_df) ∧
    (∀ k, k ∈ columns input_df ↔
          k ∈ categorical_cols_for_ohe st ∨
          k ∈ clean_difficulty_name <$> all_difficulties st) ∧
    Forall (fun column => length column.2 = 1%nat) input_df.
Proof.
  intros Hiter. rewrite (build_input_iterable st data Hiter).
  eexists. split; [reflexivity|].
  rewrite categorical_columns_set_all. unfold columns. split; [|split].
  - apply set_all_NoDup, set_all_NoDup. constructor.
  - intros k. rewrite !set_all_columns, list_fmap_id. simpl.
    rewrite elem_of_nil. tauto.
  - apply (set_all_Forall _ _ (fun cell => length cell = 1%nat)); [done|].
    apply (set_all_Forall _ _ (fun cell => length cell = 1%nat)); [done|].
    constructor.
Qed.

Lemma row_shape_witness :
  ∃ input_df,
    build_input shared_name_state demo_data = Ok input_df ∧
    NoDup (columns input_df) ∧
    (∀ k, k ∈ columns input_df ↔
          k ∈ categorical_cols_for_ohe shared_name_state ∨
          k ∈ clean_difficulty_name <$> all_difficulties shared_name_state) ∧
    Forall (fun column => length column.2 = 1%nat) input_df.
Proof. apply row_shape. reflexivity. Defined.

(** ** Fields the handler does not read *)

Lemma categorical_columns_ext cols data1 data2 input_data :
  (∀ col, col ∈ cols → data1 !! col = data2 !! col) →
  categorical_columns cols data1 input_data
  = categorical_columns cols data2 input_data.
Proof.
  revert input_data. induction cols as [|col cols IH]; intros r Hsame; [done|].
  unfold categorical_columns in *. simpl.
  rewrite (Hsame col) by (apply elem_of_cons; by left).
  apply IH. intros col' Hcol'. apply Hsame, elem_of_cons. by right.
Qed.

(** X9.  Two requests that agree on every categorical name and on the
    difficulties field get the same frame, and, when neither is empty, the
    same answer: any other field of the request is ignored. *)
Theorem other_fields_ignored st data1 data2 :
  (∀ col, col ∈ categorical_cols_for_ohe st → data1 !! col = data2 !! col) →
  data1 !! campo_dificuldades = data2 !! campo_dificuldades →
  build_input st data1 = build_input st data2 ∧
  (data1 ≠ ∅ → data2 ≠ ∅ →
   recommend st (JsonValue (VDict data1)) = recommend st (JsonValue (VDict data2))).
Proof.
  intros Hcols Hdiff.
  assert (Hrow : build_input st data1 = build_input st data2).
  { unfold build_input, read_difficulties.
    by rewrite Hdiff, (categorical_columns_ext _ data1 data2 _ Hcols). }
  split; [done|].
  intros H1%dict_truthy_iff H2%dict_truthy_iff.
  unfold recommend. by rewrite H1, H2, Hrow.
Qed.

Lemma other_fields_ignored_witness :
  build_input demo_state demo_data = build_input demo_state demo_data_extra ∧
  (demo_data ≠ ∅ → demo_data_extra ≠ ∅ →
   recommend demo_state (JsonValue (VDict demo_data))
   = recommend demo_state (JsonValue (VDict demo_data_extra))).
Proof.
  apply other_fields_ignored.
  - intros col Hcol. simpl in Hcol.
    repeat (apply elem_of_cons in Hcol as [->|Hcol]; [reflexivity|]).
    by apply elem_of_nil in Hcol.
  - reflexivity.
Defined.

(** ** No difficulty sent *)

Lemma all_flags_zero_when_none_found st data :
  (∀ d, d ∈ all_difficulties st → py_in d (read_difficulties data) = Ok false) →
  all_flags_zero st data.
Proof.
  intros Hnone. unfold all_flags_zero, build_input.
  rewrite difficulty_columns_none_found by done.
  eexists. split; [reflexivity|].
  intros d Hd. unfold pd_DataFrame.
  destruct (get_set_all_assigned clean_difficulty_name
              (fun _ : string => flag false)
              (clean_difficulty_name d) (all_difficulties st)
              (categorical_columns (categorical_cols_for_ohe st) data []))
    as (x & _ & _ & Hget); [by apply list_elem_of_fmap_2 | done].
Qed.

(** X10.  Without a difficulties field, with the empty list, or with a
    string all of whose segments are blank, the frame is built and every
    difficulty column is 0. *)
Theorem no_difficulty_all_zero st data :
  data !! campo_dificuldades = None ∨
  data !! campo_dificuldades = Some (VList []) ∨
  (∃ s, data !! campo_dificuldades = Some (VStr s) ∧ split_difficulties s = []) →
  all_flags_zero st data.
Proof.
  intros Hfield. apply all_flags_zero_when_none_found.
  assert (Hread : read_difficulties data = VList []).
  { unfold read_difficulties.
    destruct Hfield as [->|[->|(s & -> & Hs)]]; simpl; [done|done|].
    by rewrite Hs. }
  rewrite Hread. done.
Qed.

Lemma no_difficulty_all_zero_witness :
  all_flags_zero demo_state demo_data ∧
  all_flags_zero demo_state blank_difficulties.
Proof.
  split; apply no_difficulty_all_zero.
  - left. reflexivity.
  - right; right. exists " , ,". split; reflexivity.
Defined.

(** ** Order and repetition in the list of difficulties *)

Lemma member_of_same_elements l1 l2 d :
  (∀ v : value, v ∈ l1 ↔ v ∈ l2) →
  member_of (VList l1) d = member_of (VList l2) d.
Proof.
  intros Hsame.
  destruct (member_of (VList l1) d) eqn:H1, (member_of (VList l2) d) eqn:H2;
    try done.
  - apply member_of_list, Hsame, member_of_list in H1. congruence.
  - apply member_of_list, Hsame, member_of_list in H2. congruence.
Qed.

(** X11.  Two lists with the same elements, in whatever order and however
    often repeated, give the same 0/1 columns. *)
Theorem list_order_irrelevant st data l1 l2 :
  (∀ v : value, v ∈ l1 ↔ v ∈ l2) →
  same_flags st
    (with_difficulties (VList l1) data) (with_difficulties (VList l2) data).
Proof.
  intros Hsame.
  assert (Hread : ∀ l, read_difficulties (with_difficulties (VList l) data)
                       = VList l).
  { intros l. unfold read_difficulties, with_difficulties.
    by rewrite lookup_insert_eq. }
  assert (Hiter : ∀ l, iterable (difficulties_field
                                   (with_difficulties (VList l) data)) = true).
  { intros l. unfold difficulties_field, with_difficulties.
    by rewrite lookup_insert_eq. }
  do 2 eexists. split; [by apply build_input_iterable|].
  split; [by apply build_input_iterable|].
  intros d Hd. rewrite !Hread.
  assert (Hk : clean_difficulty_name d
               ∈ clean_difficulty_name <$> all_difficulties st)
    by by apply list_elem_of_fmap_2.
  destruct (get_set_all_assigned clean_difficulty_name
              (fun d => flag (member_of (VList l1) d)) _ _
              (categorical_columns (categorical_cols_for_ohe st)
                 (with_difficulties (VList l1) data) []) Hk)
    as (x & _ & _ & Hget).
  exists (member_of (VList l1) x). split; [done|].
  rewrite <- Hget. symmetry. apply get_set_all_ext; [done|].
  intros y _. f_equal. by apply member_of_same_elements.
Qed.

Lemma list_order_irrelevant_witness :
  same_flags demo_state
    (with_difficulties (VList [VStr "Outro"; VStr "Falta de tempo"; VStr "Outro"])
       demo_data)
    (with_difficulties (VList [VStr "Falta de tempo"; VStr "Outro"]) demo_data).
Proof.
  apply list_order_irrelevant. intros v.
  rewrite !elem_of_cons, !elem_of_nil. tauto.
Defined.

(** ** Answers *)

(** X12.  Every answer the handler returns is of one of three kinds: 200
    with a cluster and a list of recommendations, 400 or 503 with an error
    message, both without printing, or 500 with an error message and one
    printed line. *)
Theorem response_kinds st req status body printed :
  recommend st req = (Respond status body, printed) →
  (status = 200 ∧ printed = [] ∧
   ∃ c recs, body = recommendation_body c recs) ∨
  ((status = 400 ∨ status = 503) ∧ printed = [] ∧
   ∃ msg, body = error_body msg) ∨
  (status = 500 ∧
   ∃ msg detail, body = error_body msg ∧ printed = [msg_log +:+ detail]).
Proof.
  unfold recommend.
  destruct (pipeline st) as [model|];
    [|intros [= <- <- <-]; right; left; eauto].
  destruct req as [v|]; [|discriminate].
  assert (Hinvalid :
    (Respond 400 (error_body msg_invalida), []) = (Respond status body, printed) →
    (status = 200 ∧ printed = [] ∧
     ∃ c recs, body = recommendation_body c recs) ∨
    ((status = 400 ∨ status = 503) ∧ printed = [] ∧
     ∃ msg, body = error_body msg) ∨
    (status = 500 ∧
     ∃ msg detail, body = error_body msg ∧ printed = [msg_log +:+ detail])).
  { intros [= <- <- <-]. right; left. eauto. }
  destruct v as [| | | | | |data]; try exact Hinvalid.
  destruct (dict_truthy data); [|exact Hinvalid].
  destruct (build_input st data) as [input_df|]; [|discriminate].
  unfold predict_and_answer.
  destruct (model input_df) as [c|[]]; intros [= <- <- <-]; eauto 10.
Qed.

Lemma response_kinds_witness :
  (500 = 200 ∧ [msg_log +:+ "Input contains NaN"] = [] ∧
   ∃ c recs, error_body (msg_interno +:+ "Input contains NaN")
             = recommendation_body c recs) ∨
  ((500 = 400 ∨ 500 = 503) ∧ [msg_log +:+ "Input contains NaN"] = [] ∧
   ∃ msg, error_body (msg_interno +:+ "Input contains NaN") = error_body msg) ∨
  (500 = 500 ∧
   ∃ msg detail,
     error_body (msg_interno +:+ "Input contains NaN") = error_body msg ∧
     [msg_log +:+ "Input contains NaN"] = [msg_log +:+ detail]).
Proof.
  apply (response_kinds (demo_state_with failing_model)
           (JsonValue (VDict demo_data))).
  reflexivity.
Defined.

(** X13.  When the model returns one of the clusters 0 to 3, the answer is
    200 with that cluster and the five policies the table has for it. *)
Theorem known_cluster_policies st model data input_df (c : Z) :
  pipeline st = Some model →
  data ≠ ∅ →
  build_input st data = Ok input_df →
  model input_df = Ok c →
  (0 ≤ c ≤ 3)%Z →
  ∃ recs,
    politicas_sugeridas_por_cluster !! c = Some recs ∧
    length recs = 5%nat ∧
    recommend st (JsonValue (VDict data))
    = (Respond 200 (recommendation_body c recs), []).
Proof.
  intros Hp Hd%dict_truthy_iff Hrow Hc Hrange.
  rewrite (recommend_assembled _ _ _ _ Hp Hd Hrow).
  unfold predict_and_answer. rewrite Hc.
  assert (Hcases : c = 0 ∨ c = 1 ∨ c = 2 ∨ c = 3) by lia.
  destruct Hcases as [-> | [-> | [-> | ->]]]; eexists; by repeat split.
Qed.

Lemma known_cluster_policies_witness :
  ∃ recs,
    politicas_sugeridas_por_cluster !! 2 = Some recs ∧
    length recs = 5%nat ∧
    recommend (demo_state_with (fun _ => Ok 2)) (JsonValue (VDict demo_data))
    = (Respond 200 (recommendation_body 2 recs), []).
Proof.
  eapply (known_cluster_policies (demo_state_with (fun _ => Ok 2))
            (fun _ => Ok 2) demo_data).
  - reflexivity.
  - apply dict_truthy_iff. by vm_compute.
  - reflexivity.
  - reflexivity.
  - lia.
Defined.

(** X14.  An exception of the model is answered, not passed on: a
    [KeyError] with 400 and the key, without printing; any other with 500
    and its message, which is also printed. *)
Theorem model_exception_answered st model data input_df e :
  pipeline st = Some model →
  data ≠ ∅ →
  build_input st data = Ok input_df →
  model input_df = Raise e →
  recommend st (JsonValue (VDict data))
  = match e with
    | KeyError k => (Respond 400 (error_body (msg_chave +:+ k)), [])
    | _ => (Respond 500 (error_body (msg_interno +:+ exn_str e)),
            [msg_log +:+ exn_str e])
    end.
Proof.
  intros Hp Hd%dict_truthy_iff Hrow He.
  rewrite (recommend_assembled _ _ _ _ Hp Hd Hrow).
  unfold predict_and_answer. rewrite He. by destruct e.
Qed.

Lemma model_exception_answered_witness :
  recommend (demo_state_with missing_column_model) (JsonValue (VDict demo_data))
  = (Respond 400 (error_body (msg_chave +:+ "'Genero'")), []) ∧
  recommend (demo_state_with failing_model) (JsonValue (VDict demo_data))
  = (Respond 500 (error_body (msg_interno +:+ "Input contains NaN")),
     [msg_log +:+ "Input contains NaN"]).
Proof.
  split.
  - eapply (model_exception_answered (demo_state_with missing_column_model)
              missing_column_model demo_data _ (KeyError "'Genero'"));
      [reflexivity | apply dict_truthy_iff; by vm_compute
      | reflexivity | reflexivity].
  - eapply (model_exception_answered (demo_state_with failing_model)
              failing_model demo_data _ (OtherException "Input contains NaN"));
      [reflexivity | apply dict_truthy_iff; by vm_compute
      | reflexivity | reflexivity].
Defined.

(** X15.  With the model loaded and a value given by [request.json], an
    exception leaves the handler exactly when that value is a non-empty
    object whose difficulties field is not a string, list or object while
    the vocabulary of difficulties is not empty. *)
Theorem uncaught_exactly st model v :
  pipeline st = Some model →
  (∃ e printed, recommend st (JsonValue v) = (Uncaught e, printed)) ↔
  ∃ data,
    v = VDict data ∧ data ≠ ∅ ∧
    all_difficulties st ≠ [] ∧
    iterable (difficulties_field data) = false.
Proof.
  intros Hp. split.
  - intros (e & printed & Hrec). unfold recommend in Hrec. rewrite Hp in Hrec.
    destruct v as [| | | | | |data]; try discriminate.
    exists data. split; [done|].
    destruct (dict_truthy data) eqn:Hd; [|discriminate].
    split; [by apply dict_truthy_iff|].
    destruct (iterable (difficulties_field data)) eqn:Hiter.
    { rewrite (build_input_iterable st data Hiter) in Hrec.
      destruct (predict_and_answer_responds model
                  (set_all clean_difficulty_name
                     (fun d => flag (member_of (read_difficulties data) d))
                     (all_difficulties st)
                     (categorical_columns (categorical_cols_for_ohe st) data [])))
        as (status & body & printed' & Hans).
      rewrite Hans in Hrec. discriminate. }
    split; [|done]. intros Hempty.
    unfold build_input in Hrec. rewrite Hempty in Hrec. simpl in Hrec.
    destruct (predict_and_answer_responds model
                (pd_DataFrame
                   (categorical_columns (categorical_cols_for_ohe st) data [])))
      as (status & body & printed' & Hans).
    rewrite Hans in Hrec. discriminate.
  - intros (data & -> & Hd%dict_truthy_iff & Hds & Hiter).
    destruct (all_difficulties st) as [|d ds] eqn:Hall; [done|].
    rewrite (row_exception_uncaught st model data d ds Hp Hd Hall Hiter).
    eauto.
Qed.

Lemma uncaught_exactly_witness :
  (∃ e printed,
     recommend demo_state (JsonValue (VDict numeric_difficulties))
     = (Uncaught e, printed)) ↔
  ∃ data,
    VDict numeric_difficulties = VDict data ∧ data ≠ ∅ ∧
    all_difficulties demo_state ≠ [] ∧
    iterable (difficulties_field data) = false.
Proof. apply (uncaught_exactly demo_state (fun _ => Ok 0)). reflexivity. Defined.

(** ** The loader *)

(** X16.  When all four reads succeed, the process holds what they gave,
    one line reports success, and no request is answered with 503. *)
Theorem successful_load fs p pb ds cs :
  joblib_load fs = Ok p →
  load_politicas_base fs = Ok pb →
  load_all_difficulties fs = Ok ds →
  load_categorical_cols fs = Ok cs →
  startup fs
  = ({| pipeline := Some p; politicas_base := pb;
        all_difficulties := ds; categorical_cols_for_ohe := cs |},
     ["Modelo, políticas e dados de apoio carregados com sucesso."]) ∧
  ∀ req status body printed,
    recommend (startup fs).1 req = (Respond status body, printed) →
    status ≠ 503.
Proof.
  intros Hp Hpb Hds Hcs.
  assert (Hstart : startup fs
    = ({| pipeline := Some p; politicas_base := pb;
          all_difficulties := ds; categorical_cols_for_ohe := cs |},
       ["Modelo, políticas e dados de apoio carregados com sucesso."])).
  { unfold startup, load_all. by rewrite Hp, Hpb, Hds, Hcs. }
  split; [done|]. rewrite Hstart. simpl.
  intros req status body printed. unfold recommend. simpl.
  destruct req as [[| | | | | |data]|];
    try discriminate; try (by intros [= <- _ _]).
  destruct (dict_truthy data); [|by intros [= <- _ _]].
  destruct (build_input _ data) as [input_df|]; [|discriminate].
  unfold predict_and_answer.
  destruct (p input_df) as [c|[]]; by intros [= <- _ _].
Qed.

Lemma successful_load_witness :
  startup (all_files (fun _ => Ok 1))
  = ({| pipeline := Some (fun _ => Ok 1); politicas_base := VDict ∅;
        all_difficulties := ["Falta de tempo"; "Outro"];
        categorical_cols_for_ohe := ["Genero"] |},
     ["Modelo, políticas e dados de apoio carregados com sucesso."]) ∧
  ∀ req status body printed,
    recommend (startup (all_files (fun _ => Ok 1))).1 req
    = (Respond status body, printed) →
    status ≠ 503.
Proof. by apply successful_load. Defined.

(** X17.  The reads are made in order and the first that raises ends the
    load: the line printed is about that exception, with the hint about the
    four files for a missing file, whatever the later reads would do. *)
Theorem first_failure_reported fs e :
  joblib_load fs = Raise e ∨
  (¬ fails (joblib_load fs) ∧ load_politicas_base fs = Raise e) ∨
  (¬ fails (joblib_load fs) ∧ ¬ fails (load_politicas_base fs) ∧
   load_all_difficulties fs = Raise e) ∨
  (¬ fails (joblib_load fs) ∧ ¬ fails (load_politicas_base fs) ∧
   ¬ fails (load_all_difficulties fs) ∧ load_categorical_cols fs = Raise e) →
  startup fs = (degraded, [load_report e]).
Proof.
  intros Hfirst.
  assert (Hload : load_all fs = Raise e).
  { unfold load_all, fails in *.
    destruct (joblib_load fs) as [p|e1].
    2:{ destruct Hfirst as [[= ->]|[[H _]|[[H _]|[H _]]]]; [done|..];
          destruct H; eauto. }
    destruct (load_politicas_base fs) as [pb|e2].
    2:{ destruct Hfirst as [?|[[_ [= ->]]|[(_ & H & _)|(_ & H & _)]]];
          [done|done|..]; destruct H; eauto. }
    destruct (load_all_difficulties fs) as [ds|e3].
    2:{ destruct Hfirst as [?|[[_ ?]|[(_ & _ & [= ->])|(_ & _ & H & _)]]];
          [done|done|done|]; destruct H; eauto. }
    destruct Hfirst as [?|[[_ ?]|[(_ & _ & ?)|(_ & _ & _ & ->)]]]; done. }
  unfold startup. rewrite Hload. by destruct e.
Qed.

Lemma first_failure_reported_witness :
  startup bad_vocabulary_file
  = (degraded,
     [load_report (OtherException "Expecting value: line 1 column 1 (char 0)")]).
Proof.
  apply first_failure_reported. right; right; left.
  unfold fails. repeat split; try reflexivity; intros [e He]; discriminate He.
Defined.
